(** * GKE node pools and clusters: adapter, drift classifier, late
      initialisation and the external client of the GKECluster controller

    A shallow embedding of
      - package nodepool (GenerateNodePool, GenerateConfig,
        GenerateObservation, GenerateNodePoolUpdate, LateInitializeSpec,
        IsUpToDate), and
      - pkg/controller/compute/v1beta1/cluster.go (Connect, Observe, Create,
        Update, Delete of the GKECluster external client).

    Conventions of the embedding.
      - A Go pointer [*T] is [option T]; [None] is the nil pointer.
      - A Go slice [[]T] is [option (list T)]: [None] is the nil slice and
        [Some []] the empty, non-nil one.  go-cmp tells them apart, [len]
        does not.  A [map[string]string] is [option (gmap string string)]
        for the same reason.
      - [int64] is [Z]; the code only copies and compares these numbers.
      - A run that dereferences a nil pointer ends in [Panic]. *)

From stdpp Require Import base option list strings gmap.
From Stdlib Require Import ZArith.

Local Open Scope string_scope.
Local Open Scope Z_scope.
Local Open Scope list_scope.

(** ** Outcomes: a result, or a run-time panic *)

Inductive outcome (A : Type) : Type :=
  | Ok (a : A)
  | Panic.
Arguments Ok {A} a.
Arguments Panic {A}.

#[global] Instance outcome_ret : MRet outcome := fun _ a => Ok a.
#[global] Instance outcome_bind : MBind outcome := fun _ _ f m =>
  match m with
  | Ok a => f a
  | Panic => Panic
  end.

#[global] Instance outcome_eq_dec {A} `{EqDecision A} : EqDecision (outcome A).
Proof. solve_decision. Defined.

(** [*p] *)
Definition deref {A} (p : option A) : outcome A :=
  match p with
  | Some a => Ok a
  | None => Panic
  end.

(** ** Slices and maps *)

Definition slice (A : Type) : Type := option (list A).
Definition gomap : Type := option (gmap string string).

(** the elements a [range] loop visits *)
Definition elems {A} (s : slice A) : list A := default [] s.

Definition len {A} (s : slice A) : nat := length (elems s).

Definition maplen (m : gomap) : nat :=
  match m with
  | Some g => size g
  | None => 0%nat
  end.

(** [append(s, x)]: the result is never nil *)
Definition append {A} (s : slice A) (x : A) : slice A := Some (elems s ++ [x]).

(** [cmp.Equal] of go-cmp, without options, on the types of this file: structs
    field by field, pointers through their targets (nil only equals nil),
    slices element by element and maps key by key, a nil slice or map being
    different from an empty one.  On the embedding this is equality. *)
Definition cmp_Equal {A} `{EqDecision A} (x y : A) : bool := bool_decide (x = y).

(** ** Package gcp: pointer helpers *)

Module gcp.

(** Modelled from the spec: the helpers of pkg/clients (Int64Value,
    StringValue, BoolValue and the LateInitialize family) are called by
    package nodepool but their file is not among the sources.  The value
    helpers read through a pointer and give the zero value for nil.  The
    late-initialisers follow section 4.3: the current value is returned
    unchanged if it is already set (non-nil pointer, non-empty collection),
    otherwise the observed value is returned. *)
Definition Int64Value (v : option Z) : Z := default 0 v.
Definition StringValue (v : option string) : string := default "" v.
Definition BoolValue (v : option bool) : bool := default false v.

Definition LateInitializeBool (b : option bool) (from : bool) : option bool :=
  match b with
  | Some _ => b
  | None => Some from
  end.

Definition LateInitializeInt64 (i : option Z) (from : Z) : option Z :=
  match i with
  | Some _ => i
  | None => Some from
  end.

Definition LateInitializeString (s : option string) (from : string) : option string :=
  match s with
  | Some _ => s
  | None => Some from
  end.

Definition LateInitializeStringSlice (s from : slice string) : slice string :=
  if decide (len s = 0%nat) then from else s.

Definition LateInitializeStringMap (s from : gomap) : gomap :=
  if decide (maplen s = 0%nat) then from else s.

End gcp.

(** ** The desired-state types (apis/container/v1beta1)

    The declarations are not among the sources; the records list the fields
    package nodepool reads or writes, each with the type its uses fix (a
    field passed to [gcp.Int64Value] is a [*int64], a field copied to or from
    the provider's struct without conversion has the provider's type). *)

Module v1beta1.

Record AcceleratorConfig := {
  AcceleratorCount : Z;
  AcceleratorType : string }.

Record NodeTaint := {
  Effect : string;
  Key : string;
  Value : string }.

Record SandboxConfig := { SandboxType : string }.

Record ShieldedInstanceConfig := {
  EnableIntegrityMonitoring : option bool;
  EnableSecureBoot : option bool }.

Record WorkloadMetadataConfig := { NodeMetadata : string }.

Record MaxPodsConstraint := { MaxPodsPerNode : Z }.

Record NodePoolAutoscaling := {
  Autoprovisioned : option bool;
  Enabled : option bool;
  MaxNodeCount : option Z;
  MinNodeCount : option Z }.

Record NodeManagementSpec := {
  AutoRepair : option bool;
  AutoUpgrade : option bool }.

Record NodeConfig := {
  Accelerators : slice (option AcceleratorConfig);
  DiskSizeGb : option Z;
  DiskType : option string;
  ImageType : option string;
  Labels : gomap;
  LocalSsdCount : option Z;
  MachineType : option string;
  Metadata : gomap;
  MinCPUPlatform : option string;
  OauthScopes : slice string;
  Preemptible : option bool;
  cfg_SandboxConfig : option SandboxConfig;
  ServiceAccount : option string;
  cfg_ShieldedInstanceConfig : option ShieldedInstanceConfig;
  Tags : slice string;
  Taints : slice (option NodeTaint);
  cfg_WorkloadMetadataConfig : option WorkloadMetadataConfig }.

Record NodePoolParameters := {
  Cluster : option string;
  Autoscaling : option NodePoolAutoscaling;
  Config : option NodeConfig;
  InitialNodeCount : option Z;
  Locations : slice string;
  Management : option NodeManagementSpec;
  np_MaxPodsConstraint : option MaxPodsConstraint;
  Version : option string }.

Record StatusCondition := {
  Code : string;
  Message : string }.

Record AutoUpgradeOptions := {
  AutoUpgradeStartTime : string;
  Description : string }.

Record NodeManagementStatus := { UpgradeOptions : option AutoUpgradeOptions }.

Record NodePoolObservation := {
  Conditions : slice (option StatusCondition);
  InstanceGroupUrls : slice string;
  PodIpv4CidrSize : Z;
  obs_Management : option NodeManagementStatus;
  SelfLink : string;
  Status : string;
  StatusMessage : string }.

#[global] Instance AcceleratorConfig_eq_dec : EqDecision AcceleratorConfig.
Proof. solve_decision. Defined.
#[global] Instance NodeTaint_eq_dec : EqDecision NodeTaint.
Proof. solve_decision. Defined.
#[global] Instance SandboxConfig_eq_dec : EqDecision SandboxConfig.
Proof. solve_decision. Defined.
#[global] Instance ShieldedInstanceConfig_eq_dec : EqDecision ShieldedInstanceConfig.
Proof. solve_decision. Defined.
#[global] Instance WorkloadMetadataConfig_eq_dec : EqDecision WorkloadMetadataConfig.
Proof. solve_decision. Defined.
#[global] Instance MaxPodsConstraint_eq_dec : EqDecision MaxPodsConstraint.
Proof. solve_decision. Defined.
#[global] Instance NodePoolAutoscaling_eq_dec : EqDecision NodePoolAutoscaling.
Proof. solve_decision. Defined.
#[global] Instance NodeManagementSpec_eq_dec : EqDecision NodeManagementSpec.
Proof. solve_decision. Defined.
#[global] Instance NodeConfig_eq_dec : EqDecision NodeConfig.
Proof. solve_decision. Defined.
#[global] Instance NodePoolParameters_eq_dec : EqDecision NodePoolParameters.
Proof. solve_decision. Defined.
#[global] Instance StatusCondition_eq_dec : EqDecision StatusCondition.
Proof. solve_decision. Defined.
#[global] Instance AutoUpgradeOptions_eq_dec : EqDecision AutoUpgradeOptions.
Proof. solve_decision. Defined.
#[global] Instance NodeManagementStatus_eq_dec : EqDecision NodeManagementStatus.
Proof. solve_decision. Defined.
#[global] Instance NodePoolObservation_eq_dec : EqDecision NodePoolObservation.
Proof. solve_decision. Defined.

(** [&v1beta1.NodePoolParameters{}], [&v1beta1.NodeConfig{}], ... *)
Definition emptyAutoscaling : NodePoolAutoscaling :=
  {| Autoprovisioned := None; Enabled := None; MaxNodeCount := None; MinNodeCount := None |}.

Definition emptyManagement : NodeManagementSpec :=
  {| AutoRepair := None; AutoUpgrade := None |}.

Definition emptyShielded : ShieldedInstanceConfig :=
  {| EnableIntegrityMonitoring := None; EnableSecureBoot := None |}.

Definition emptyConfig : NodeConfig :=
  {| Accelerators := None; DiskSizeGb := None; DiskType := None; ImageType := None;
     Labels := None; LocalSsdCount := None; MachineType := None; Metadata := None;
     MinCPUPlatform := None; OauthScopes := None; Preemptible := None;
     cfg_SandboxConfig := None; ServiceAccount := None;
     cfg_ShieldedInstanceConfig := None; Tags := None; Taints := None;
     cfg_WorkloadMetadataConfig := None |}.

Definition emptyParameters : NodePoolParameters :=
  {| Cluster := None; Autoscaling := None; Config := None; InitialNodeCount := None;
     Locations := None; Management := None; np_MaxPodsConstraint := None;
     Version := None |}.

End v1beta1.

(** ** The provider's types (google.golang.org/api/container/v1beta1)

    Again only the fields the code touches; every other field of the SDK's
    structs keeps its zero value throughout. *)

Module container.

Record AcceleratorConfig := {
  AcceleratorCount : Z;
  AcceleratorType : string }.

Record NodeTaint := {
  Effect : string;
  Key : string;
  Value : string }.

Record SandboxConfig := { SandboxType : string }.

Record ShieldedInstanceConfig := {
  EnableIntegrityMonitoring : bool;
  EnableSecureBoot : bool }.

Record WorkloadMetadataConfig := { NodeMetadata : string }.

Record MaxPodsConstraint := { MaxPodsPerNode : Z }.

Record NodePoolAutoscaling := {
  Autoprovisioned : bool;
  Enabled : bool;
  MaxNodeCount : Z;
  MinNodeCount : Z }.

Record AutoUpgradeOptions := {
  AutoUpgradeStartTime : string;
  Description : string }.

Record NodeManagement := {
  AutoRepair : bool;
  AutoUpgrade : bool;
  UpgradeOptions : option AutoUpgradeOptions }.

Record NodeConfig := {
  Accelerators : slice (option AcceleratorConfig);
  DiskSizeGb : Z;
  DiskType : string;
  ImageType : string;
  Labels : gomap;
  LocalSsdCount : Z;
  MachineType : string;
  Metadata : gomap;
  MinCpuPlatform : string;
  OauthScopes : slice string;
  Preemptible : bool;
  cfg_SandboxConfig : option SandboxConfig;
  ServiceAccount : string;
  cfg_ShieldedInstanceConfig : option ShieldedInstanceConfig;
  Tags : slice string;
  Taints : slice (option NodeTaint);
  cfg_WorkloadMetadataConfig : option WorkloadMetadataConfig }.

Record StatusCondition := {
  Code : string;
  Message : string }.

Record NodePool := {
  Autoscaling : option NodePoolAutoscaling;
  Config : option NodeConfig;
  Conditions : slice (option StatusCondition);
  InitialNodeCount : Z;
  InstanceGroupUrls : slice string;
  Locations : slice string;
  Management : option NodeManagement;
  np_MaxPodsConstraint : option MaxPodsConstraint;
  Name : string;
  PodIpv4CidrSize : Z;
  SelfLink : string;
  Status : string;
  StatusMessage : string;
  Version : string }.

Record UpdateNodePoolRequest := {
  req_ImageType : string;
  req_Locations : slice string;
  NodeVersion : string;
  req_WorkloadMetadataConfig : option WorkloadMetadataConfig }.

#[global] Instance AcceleratorConfig_eq_dec : EqDecision AcceleratorConfig.
Proof. solve_decision. Defined.
#[global] Instance NodeTaint_eq_dec : EqDecision NodeTaint.
Proof. solve_decision. Defined.
#[global] Instance SandboxConfig_eq_dec : EqDecision SandboxConfig.
Proof. solve_decision. Defined.
#[global] Instance ShieldedInstanceConfig_eq_dec : EqDecision ShieldedInstanceConfig.
Proof. solve_decision. Defined.
#[global] Instance WorkloadMetadataConfig_eq_dec : EqDecision WorkloadMetadataConfig.
Proof. solve_decision. Defined.
#[global] Instance MaxPodsConstraint_eq_dec : EqDecision MaxPodsConstraint.
Proof. solve_decision. Defined.
#[global] Instance NodePoolAutoscaling_eq_dec : EqDecision NodePoolAutoscaling.
Proof. solve_decision. Defined.
#[global] Instance AutoUpgradeOptions_eq_dec : EqDecision AutoUpgradeOptions.
Proof. solve_decision. Defined.
#[global] Instance NodeManagement_eq_dec : EqDecision NodeManagement.
Proof. solve_decision. Defined.
#[global] Instance NodeConfig_eq_dec : EqDecision NodeConfig.
Proof. solve_decision. Defined.
#[global] Instance StatusCondition_eq_dec : EqDecision StatusCondition.
Proof. solve_decision. Defined.
#[global] Instance NodePool_eq_dec : EqDecision NodePool.
Proof. solve_decision. Defined.
#[global] Instance UpdateNodePoolRequest_eq_dec : EqDecision UpdateNodePoolRequest.
Proof. solve_decision. Defined.

End container.

(** ** Package nodepool *)

Module nodepool.

(** NodePoolNameFormat = "%s/nodePools/%s" *)
Definition NodePoolNameFormat (a b : string) : string :=
  String.append a (String.append "/nodePools/" b).

Inductive UpdateKind : Type :=
  | NoUpdate
  | AutoscalingUpdate
  | ManagementUpdate
  | SizeUpdate
  | GeneralUpdate.

#[global] Instance UpdateKind_eq_dec : EqDecision UpdateKind.
Proof. solve_decision. Defined.

(** assignments [pool.F = out] through the pool pointer *)
Definition set_Autoscaling (out : option container.NodePoolAutoscaling)
    (p : container.NodePool) : container.NodePool :=
  {| container.Autoscaling := out;
     container.Config := container.Config p;
     container.Conditions := container.Conditions p;
     container.InitialNodeCount := container.InitialNodeCount p;
     container.InstanceGroupUrls := container.InstanceGroupUrls p;
     container.Locations := container.Locations p;
     container.Management := container.Management p;
     container.np_MaxPodsConstraint := container.np_MaxPodsConstraint p;
     container.Name := container.Name p;
     container.PodIpv4CidrSize := container.PodIpv4CidrSize p;
     container.SelfLink := container.SelfLink p;
     container.Status := container.Status p;
     container.StatusMessage := container.StatusMessage p;
     container.Version := container.Version p |}.

Definition set_Config (out : option container.NodeConfig)
    (p : container.NodePool) : container.NodePool :=
  {| container.Autoscaling := container.Autoscaling p;
     container.Config := out;
     container.Conditions := container.Conditions p;
     container.InitialNodeCount := container.InitialNodeCount p;
     container.InstanceGroupUrls := container.InstanceGroupUrls p;
     container.Locations := container.Locations p;
     container.Management := container.Management p;
     container.np_MaxPodsConstraint := container.np_MaxPodsConstraint p;
     container.Name := container.Name p;
     container.PodIpv4CidrSize := container.PodIpv4CidrSize p;
     container.SelfLink := container.SelfLink p;
     container.Status := container.Status p;
     container.StatusMessage := container.StatusMessage p;
     container.Version := container.Version p |}.

Definition set_Management (out : option container.NodeManagement)
    (p : container.NodePool) : container.NodePool :=
  {| container.Autoscaling := container.Autoscaling p;
     container.Config := container.Config p;
     container.Conditions := container.Conditions p;
     container.InitialNodeCount := container.InitialNodeCount p;
     container.InstanceGroupUrls := container.InstanceGroupUrls p;
     container.Locations := container.Locations p;
     container.Management := out;
     container.np_MaxPodsConstraint := container.np_MaxPodsConstraint p;
     container.Name := container.Name p;
     container.PodIpv4CidrSize := container.PodIpv4CidrSize p;
     container.SelfLink := container.SelfLink p;
     container.Status := container.Status p;
     container.StatusMessage := container.StatusMessage p;
     container.Version := container.Version p |}.

Definition set_MaxPodsConstraint (out : option container.MaxPodsConstraint)
    (p : container.NodePool) : container.NodePool :=
  {| container.Autoscaling := container.Autoscaling p;
     container.Config := container.Config p;
     container.Conditions := container.Conditions p;
     container.InitialNodeCount := container.InitialNodeCount p;
     container.InstanceGroupUrls := container.InstanceGroupUrls p;
     container.Locations := container.Locations p;
     container.Management := container.Management p;
     container.np_MaxPodsConstraint := out;
     container.Name := container.Name p;
     container.PodIpv4CidrSize := container.PodIpv4CidrSize p;
     container.SelfLink := container.SelfLink p;
     container.Status := container.Status p;
     container.StatusMessage := container.StatusMessage p;
     container.Version := container.Version p |}.

(** The Generate functions write through [pool *container.NodePool]; each
    returns what the pointer refers to after the call ([None] for a nil
    pointer that was never written through). *)

Definition GenerateAutoscaling (in_ : option v1beta1.NodePoolAutoscaling)
    (pool : option container.NodePool) : outcome (option container.NodePool) :=
  match in_ with
  | Some i =>
      let out :=
        {| container.Autoprovisioned := gcp.BoolValue (v1beta1.Autoprovisioned i);
           container.Enabled := gcp.BoolValue (v1beta1.Enabled i);
           container.MaxNodeCount := gcp.Int64Value (v1beta1.MaxNodeCount i);
           container.MinNodeCount := gcp.Int64Value (v1beta1.MinNodeCount i) |} in
      p ← deref pool;
      Ok (Some (set_Autoscaling (Some out) p))
  | None => Ok pool
  end.

(** one turn of the loops over [in.Accelerators] and [in.Taints]: nil
    elements are skipped, the others converted and appended *)
Definition appendAccelerator (out : slice (option container.AcceleratorConfig))
    (a : option v1beta1.AcceleratorConfig) : slice (option container.AcceleratorConfig) :=
  match a with
  | Some a =>
      append out (Some {| container.AcceleratorCount := v1beta1.AcceleratorCount a;
                          container.AcceleratorType := v1beta1.AcceleratorType a |})
  | None => out
  end.

Definition appendTaint (out : slice (option container.NodeTaint))
    (t : option v1beta1.NodeTaint) : slice (option container.NodeTaint) :=
  match t with
  | Some t =>
      append out (Some {| container.Effect := v1beta1.Effect t;
                          container.Key := v1beta1.Key t;
                          container.Value := v1beta1.Value t |})
  | None => out
  end.

Definition generateSandbox (s : option v1beta1.SandboxConfig) : option container.SandboxConfig :=
  match s with
  | Some s => Some {| container.SandboxType := v1beta1.SandboxType s |}
  | None => None
  end.

Definition generateShielded (s : option v1beta1.ShieldedInstanceConfig)
    : option container.ShieldedInstanceConfig :=
  match s with
  | Some s =>
      Some {| container.EnableIntegrityMonitoring :=
                gcp.BoolValue (v1beta1.EnableIntegrityMonitoring s);
              container.EnableSecureBoot := gcp.BoolValue (v1beta1.EnableSecureBoot s) |}
  | None => None
  end.

Definition generateWorkloadMetadata (w : option v1beta1.WorkloadMetadataConfig)
    : option container.WorkloadMetadataConfig :=
  match w with
  | Some w => Some {| container.NodeMetadata := v1beta1.NodeMetadata w |}
  | None => None
  end.

Definition GenerateConfig (in_ : option v1beta1.NodeConfig)
    (pool : option container.NodePool) : outcome (option container.NodePool) :=
  match in_ with
  | Some i =>
      let out :=
        {| container.Accelerators :=
             fold_left appendAccelerator (elems (v1beta1.Accelerators i)) None;
           container.DiskSizeGb := gcp.Int64Value (v1beta1.DiskSizeGb i);
           container.DiskType := gcp.StringValue (v1beta1.DiskType i);
           container.ImageType := gcp.StringValue (v1beta1.ImageType i);
           container.Labels := v1beta1.Labels i;
           container.LocalSsdCount := gcp.Int64Value (v1beta1.LocalSsdCount i);
           container.MachineType := gcp.StringValue (v1beta1.MachineType i);
           container.Metadata := v1beta1.Metadata i;
           container.MinCpuPlatform := gcp.StringValue (v1beta1.MinCPUPlatform i);
           container.OauthScopes := v1beta1.OauthScopes i;
           container.Preemptible := gcp.BoolValue (v1beta1.Preemptible i);
           container.cfg_SandboxConfig := generateSandbox (v1beta1.cfg_SandboxConfig i);
           container.ServiceAccount := gcp.StringValue (v1beta1.ServiceAccount i);
           container.cfg_ShieldedInstanceConfig :=
             generateShielded (v1beta1.cfg_ShieldedInstanceConfig i);
           container.Tags := v1beta1.Tags i;
           container.Taints := fold_left appendTaint (elems (v1beta1.Taints i)) None;
           container.cfg_WorkloadMetadataConfig :=
             generateWorkloadMetadata (v1beta1.cfg_WorkloadMetadataConfig i) |} in
      p ← deref pool;
      Ok (Some (set_Config (Some out) p))
  | None => Ok pool
  end.

Definition GenerateManagement (in_ : option v1beta1.NodeManagementSpec)
    (pool : option container.NodePool) : outcome (option container.NodePool) :=
  match in_ with
  | Some i =>
      let out :=
        {| container.AutoRepair := gcp.BoolValue (v1beta1.AutoRepair i);
           container.AutoUpgrade := gcp.BoolValue (v1beta1.AutoUpgrade i);
           container.UpgradeOptions := None |} in
      p ← deref pool;
      Ok (Some (set_Management (Some out) p))
  | None => Ok pool
  end.

Definition GenerateMaxPodsConstraint (in_ : option v1beta1.MaxPodsConstraint)
    (pool : option container.NodePool) : outcome (option container.NodePool) :=
  match in_ with
  | Some i =>
      let out := {| container.MaxPodsPerNode := v1beta1.MaxPodsPerNode i |} in
      p ← deref pool;
      Ok (Some (set_MaxPodsConstraint (Some out) p))
  | None => Ok pool
  end.

(** the composite literal [&container.NodePool{...}] of GenerateNodePool *)
Definition newNodePool (in_ : v1beta1.NodePoolParameters) (name : string) : container.NodePool :=
  {| container.Autoscaling := None;
     container.Config := None;
     container.Conditions := None;
     container.InitialNodeCount := gcp.Int64Value (v1beta1.InitialNodeCount in_);
     container.InstanceGroupUrls := None;
     container.Locations := v1beta1.Locations in_;
     container.Management := None;
     container.np_MaxPodsConstraint := None;
     container.Name := name;
     container.PodIpv4CidrSize := 0;
     container.SelfLink := "";
     container.Status := "";
     container.StatusMessage := "";
     container.Version := gcp.StringValue (v1beta1.Version in_) |}.

Definition GenerateNodePool (in_ : v1beta1.NodePoolParameters) (name : string)
    : outcome (option container.NodePool) :=
  let pool := Some (newNodePool in_ name) in
  pool ← GenerateAutoscaling (v1beta1.Autoscaling in_) pool;
  pool ← GenerateConfig (v1beta1.Config in_) pool;
  pool ← GenerateManagement (v1beta1.Management in_) pool;
  pool ← GenerateMaxPodsConstraint (v1beta1.np_MaxPodsConstraint in_) pool;
  Ok pool.

Definition appendCondition (out : slice (option v1beta1.StatusCondition))
    (c : option container.StatusCondition) : slice (option v1beta1.StatusCondition) :=
  match c with
  | Some c =>
      append out (Some {| v1beta1.Code := container.Code c;
                          v1beta1.Message := container.Message c |})
  | None => out
  end.

Definition observeManagement (m : option container.NodeManagement)
    : option v1beta1.NodeManagementStatus :=
  match m with
  | Some m =>
      match container.UpgradeOptions m with
      | Some u =>
          Some {| v1beta1.UpgradeOptions :=
                    Some {| v1beta1.AutoUpgradeStartTime := container.AutoUpgradeStartTime u;
                            v1beta1.Description := container.Description u |} |}
      | None => None
      end
  | None => None
  end.

Definition GenerateObservation (in_ : container.NodePool) : outcome v1beta1.NodePoolObservation :=
  Ok {| v1beta1.Conditions := fold_left appendCondition (elems (container.Conditions in_)) None;
        v1beta1.InstanceGroupUrls := container.InstanceGroupUrls in_;
        v1beta1.PodIpv4CidrSize := container.PodIpv4CidrSize in_;
        v1beta1.obs_Management := observeManagement (container.Management in_);
        v1beta1.SelfLink := container.SelfLink in_;
        v1beta1.Status := container.Status in_;
        v1beta1.StatusMessage := container.StatusMessage in_ |}.

Definition GenerateNodePoolUpdate (in_ : option v1beta1.NodePoolParameters)
    : outcome (option container.UpdateNodePoolRequest) :=
  i ← deref in_;
  let o :=
    {| container.req_ImageType := "";
       container.req_Locations := v1beta1.Locations i;
       container.NodeVersion := gcp.StringValue (v1beta1.Version i);
       container.req_WorkloadMetadataConfig := None |} in
  match v1beta1.Config i with
  | Some c =>
      Ok (Some {| container.req_ImageType := gcp.StringValue (v1beta1.ImageType c);
                  container.req_Locations := container.req_Locations o;
                  container.NodeVersion := container.NodeVersion o;
                  container.req_WorkloadMetadataConfig :=
                    generateWorkloadMetadata (v1beta1.cfg_WorkloadMetadataConfig c) |})
  | None => Ok (Some o)
  end.

(** *** LateInitializeSpec *)

(** the loops that fill the freshly made slices by index; the observed
    element is dereferenced without a nil check *)
Fixpoint fillAccelerators (i : nat) (src : list (option container.AcceleratorConfig))
    (dst : list (option v1beta1.AcceleratorConfig))
    : outcome (list (option v1beta1.AcceleratorConfig)) :=
  match src with
  | [] => Ok dst
  | a :: rest =>
      a ← deref a;
      fillAccelerators (S i) rest
        (<[i := Some {| v1beta1.AcceleratorCount := container.AcceleratorCount a;
                        v1beta1.AcceleratorType := container.AcceleratorType a |}]> dst)
  end.

Fixpoint fillTaints (i : nat) (src : list (option container.NodeTaint))
    (dst : list (option v1beta1.NodeTaint)) : outcome (list (option v1beta1.NodeTaint)) :=
  match src with
  | [] => Ok dst
  | t :: rest =>
      t ← deref t;
      fillTaints (S i) rest
        (<[i := Some {| v1beta1.Effect := container.Effect t;
                        v1beta1.Key := container.Key t;
                        v1beta1.Value := container.Value t |}]> dst)
  end.

(** [make([]*T, n)] *)
Definition make {A} (n : nat) : list (option A) := replicate n None.

Definition lateInitAccelerators (cur : slice (option v1beta1.AcceleratorConfig))
    (obs : slice (option container.AcceleratorConfig))
    : outcome (slice (option v1beta1.AcceleratorConfig)) :=
  if decide (len obs ≠ 0%nat ∧ len cur = 0%nat)
  then l ← fillAccelerators 0 (elems obs) (make (len obs)); Ok (Some l)
  else Ok cur.

Definition lateInitTaints (cur : slice (option v1beta1.NodeTaint))
    (obs : slice (option container.NodeTaint)) : outcome (slice (option v1beta1.NodeTaint)) :=
  if decide (len obs ≠ 0%nat ∧ len cur = 0%nat)
  then l ← fillTaints 0 (elems obs) (make (len obs)); Ok (Some l)
  else Ok cur.

Definition lateInitAutoscaling (cur : option v1beta1.NodePoolAutoscaling)
    (obs : option container.NodePoolAutoscaling) : option v1beta1.NodePoolAutoscaling :=
  match obs with
  | Some o =>
      let c := default v1beta1.emptyAutoscaling cur in
      Some {| v1beta1.Autoprovisioned :=
                gcp.LateInitializeBool (v1beta1.Autoprovisioned c) (container.Autoprovisioned o);
              v1beta1.Enabled :=
                gcp.LateInitializeBool (v1beta1.Enabled c) (container.Enabled o);
              v1beta1.MaxNodeCount :=
                gcp.LateInitializeInt64 (v1beta1.MaxNodeCount c) (container.MaxNodeCount o);
              v1beta1.MinNodeCount :=
                gcp.LateInitializeInt64 (v1beta1.MinNodeCount c) (container.MinNodeCount o) |}
  | None => cur
  end.

Definition lateInitSandbox (cur : option v1beta1.SandboxConfig)
    (obs : option container.SandboxConfig) : option v1beta1.SandboxConfig :=
  match obs, cur with
  | Some o, None => Some {| v1beta1.SandboxType := container.SandboxType o |}
  | _, _ => cur
  end.

Definition lateInitShielded (cur : option v1beta1.ShieldedInstanceConfig)
    (obs : option container.ShieldedInstanceConfig) : option v1beta1.ShieldedInstanceConfig :=
  match obs with
  | Some o =>
      let c := default v1beta1.emptyShielded cur in
      Some {| v1beta1.EnableIntegrityMonitoring :=
                gcp.LateInitializeBool (v1beta1.EnableIntegrityMonitoring c)
                  (container.EnableIntegrityMonitoring o);
              v1beta1.EnableSecureBoot :=
                gcp.LateInitializeBool (v1beta1.EnableSecureBoot c)
                  (container.EnableSecureBoot o) |}
  | None => cur
  end.

Definition lateInitWorkloadMetadata (cur : option v1beta1.WorkloadMetadataConfig)
    (obs : option container.WorkloadMetadataConfig) : option v1beta1.WorkloadMetadataConfig :=
  match obs, cur with
  | Some o, None => Some {| v1beta1.NodeMetadata := container.NodeMetadata o |}
  | _, _ => cur
  end.

Definition lateInitConfig (cur : option v1beta1.NodeConfig) (obs : option container.NodeConfig)
    : outcome (option v1beta1.NodeConfig) :=
  match obs with
  | Some o =>
      let c := default v1beta1.emptyConfig cur in
      accelerators ← lateInitAccelerators (v1beta1.Accelerators c) (container.Accelerators o);
      taints ← lateInitTaints (v1beta1.Taints c) (container.Taints o);
      Ok (Some
        {| v1beta1.Accelerators := accelerators;
           v1beta1.DiskSizeGb :=
             gcp.LateInitializeInt64 (v1beta1.DiskSizeGb c) (container.DiskSizeGb o);
           v1beta1.DiskType :=
             gcp.LateInitializeString (v1beta1.DiskType c) (container.DiskType o);
           v1beta1.ImageType :=
             gcp.LateInitializeString (v1beta1.ImageType c) (container.ImageType o);
           v1beta1.Labels :=
             gcp.LateInitializeStringMap (v1beta1.Labels c) (container.Labels o);
           v1beta1.LocalSsdCount :=
             gcp.LateInitializeInt64 (v1beta1.LocalSsdCount c) (container.LocalSsdCount o);
           v1beta1.MachineType :=
             gcp.LateInitializeString (v1beta1.MachineType c) (container.MachineType o);
           v1beta1.Metadata :=
             gcp.LateInitializeStringMap (v1beta1.Metadata c) (container.Metadata o);
           v1beta1.MinCPUPlatform :=
             gcp.LateInitializeString (v1beta1.MinCPUPlatform c) (container.MinCpuPlatform o);
           v1beta1.OauthScopes :=
             gcp.LateInitializeStringSlice (v1beta1.OauthScopes c) (container.OauthScopes o);
           v1beta1.Preemptible :=
             gcp.LateInitializeBool (v1beta1.Preemptible c) (container.Preemptible o);
           v1beta1.cfg_SandboxConfig :=
             lateInitSandbox (v1beta1.cfg_SandboxConfig c) (container.cfg_SandboxConfig o);
           v1beta1.ServiceAccount :=
             gcp.LateInitializeString (v1beta1.ServiceAccount c) (container.ServiceAccount o);
           v1beta1.cfg_ShieldedInstanceConfig :=
             lateInitShielded (v1beta1.cfg_ShieldedInstanceConfig c)
               (container.cfg_ShieldedInstanceConfig o);
           v1beta1.Tags := gcp.LateInitializeStringSlice (v1beta1.Tags c) (container.Tags o);
           v1beta1.Taints := taints;
           v1beta1.cfg_WorkloadMetadataConfig :=
             lateInitWorkloadMetadata (v1beta1.cfg_WorkloadMetadataConfig c)
               (container.cfg_WorkloadMetadataConfig o) |})
  | None => Ok cur
  end.

Definition lateInitManagement (cur : option v1beta1.NodeManagementSpec)
    (obs : option container.NodeManagement) : option v1beta1.NodeManagementSpec :=
  match obs with
  | Some o =>
      let c := default v1beta1.emptyManagement cur in
      Some {| v1beta1.AutoRepair :=
                gcp.LateInitializeBool (v1beta1.AutoRepair c) (container.AutoRepair o);
              v1beta1.AutoUpgrade :=
                gcp.LateInitializeBool (v1beta1.AutoUpgrade c) (container.AutoUpgrade o) |}
  | None => cur
  end.

Definition lateInitMaxPods (cur : option v1beta1.MaxPodsConstraint)
    (obs : option container.MaxPodsConstraint) : option v1beta1.MaxPodsConstraint :=
  match obs, cur with
  | Some o, None => Some {| v1beta1.MaxPodsPerNode := container.MaxPodsPerNode o |}
  | _, _ => cur
  end.

(** [LateInitializeSpec(spec, in)] changes [*spec] in place; the result is
    the record after the call.  [Cluster] is never assigned. *)
Definition LateInitializeSpec (spec : option v1beta1.NodePoolParameters)
    (in_ : container.NodePool) : outcome v1beta1.NodePoolParameters :=
  s ← deref spec;
  config ← lateInitConfig (v1beta1.Config s) (container.Config in_);
  Ok {| v1beta1.Cluster := v1beta1.Cluster s;
        v1beta1.Autoscaling :=
          lateInitAutoscaling (v1beta1.Autoscaling s) (container.Autoscaling in_);
        v1beta1.Config := config;
        v1beta1.InitialNodeCount :=
          gcp.LateInitializeInt64 (v1beta1.InitialNodeCount s) (container.InitialNodeCount in_);
        v1beta1.Locations :=
          gcp.LateInitializeStringSlice (v1beta1.Locations s) (container.Locations in_);
        v1beta1.Management :=
          lateInitManagement (v1beta1.Management s) (container.Management in_);
        v1beta1.np_MaxPodsConstraint :=
          lateInitMaxPods (v1beta1.np_MaxPodsConstraint s) (container.np_MaxPodsConstraint in_);
        v1beta1.Version :=
          gcp.LateInitializeString (v1beta1.Version s) (container.Version in_) |}.

(** *** IsUpToDate *)

Definition IsUpToDate (in_ : option v1beta1.NodePoolParameters)
    (currentState : container.NodePool) : outcome (bool * UpdateKind) :=
  let currentParams := Some v1beta1.emptyParameters in
  cur ← LateInitializeSpec currentParams currentState;
  i ← deref in_;
  if negb (cmp_Equal (v1beta1.Autoscaling i) (v1beta1.Autoscaling cur))
  then Ok (false, AutoscalingUpdate)
  else if negb (cmp_Equal (v1beta1.Management i) (v1beta1.Management cur))
  then Ok (false, ManagementUpdate)
  else if negb (cmp_Equal in_ (Some cur))
  then Ok (false, GeneralUpdate)
  else Ok (true, NoUpdate).

Definition GetFullyQualifiedName (p : v1beta1.NodePoolParameters) (name : string) : string :=
  NodePoolNameFormat (gcp.StringValue (v1beta1.Cluster p)) name.

End nodepool.

(** ** Errors (github.com/pkg/errors) *)

Inductive error : Type :=
  | errors_New (msg : string)
  | withMessage (cause : error) (msg : string)
  | foreign (code : Z) (msg : string).   (* an error handed back by a collaborator *)

#[global] Instance error_eq_dec : EqDecision error.
Proof. solve_decision. Defined.

(** [errors.Wrap(err, msg)]: nil for a nil [err] *)
Definition errors_Wrap (err : option error) (msg : string) : option error :=
  match err with
  | Some e => Some (withMessage e msg)
  | None => None
  end.

(** [resource.Ignore(is, err)]: nil when [is(err)], else [err] *)
Definition resource_Ignore (is_ : option error → bool) (err : option error) : option error :=
  if is_ err then None else err.

(** ** The GKECluster external client (pkg/controller/compute/v1beta1) *)

Module gkecluster.

Definition errGetProvider := "cannot get Provider".
Definition errGetProviderSecret := "cannot get Provider Secret".
Definition errNewClient := "cannot create new GKE cluster client".
Definition errManagedUpdateFailed := "cannot update GKECluster custom resource".
Definition errNotCluster := "managed resource is not a GKECluster".
Definition errUpdateCR := "cannot update GKECluster custom resource".
Definition errGetCluster := "cannot get GKE cluster".
Definition errCreateCluster := "cannot create GKE cluster".
Definition errUpdateCluster := "cannot update GKE cluster".
Definition errDeleteCluster := "cannot delete GKE cluster".

(** the conditions of crossplane-runtime that the client sets, named by
    their constructors [Available()], [Creating()], [Unavailable()],
    [Deleting()] *)
Inductive Condition : Type :=
  | Available
  | Creating
  | Unavailable
  | Deleting.

#[global] Instance Condition_eq_dec : EqDecision Condition.
Proof. solve_decision. Defined.

(** What cluster.go uses and the sources do not contain: the cluster adapter
    of pkg/clients/container (imported as [gke]), the API types of
    apis/compute/v1beta1 with the ClusterState constants, and the parts of
    crossplane-runtime that keep conditions and the binding phase.  The
    client is defined over any implementation of this interface.  A Go
    [switch] over constants does not compile with a repeated case, whence
    [ClusterState_NoDup].  [connectionDetails] is the function of that name
    in cluster.go; it formats the kubeconfig that gke.GenerateClientConfig and
    clientcmd.Write produce, neither of which is among the sources, and is
    kept abstract with them. *)
Class Adapter := {
  GKEClusterParameters : Type;
  GKEClusterParameters_eq_dec :: EqDecision GKEClusterParameters;
  GKEClusterObservation : Type;
  obs_Status : GKEClusterObservation → string;
  Cluster : Type;                       (* container.Cluster *)
  UpdateFn : Type;                      (* the update call IsUpToDate selects *)
  ConnectionDetails : Type;
  ProviderRef : Type;
  OtherManaged : Type;                  (* managed resources of another kind *)
  ConditionedStatus : Type;
  BindingPhase : Type;

  gke_GenerateObservation : Cluster → GKEClusterObservation;
  gke_LateInitializeSpec : GKEClusterParameters → Cluster → GKEClusterParameters;
  gke_IsUpToDate : GKEClusterParameters → Cluster → bool * UpdateFn;
  gke_GenerateCluster : GKEClusterParameters → Cluster;
  gcp_IsErrorNotFound : option error → bool;
  connectionDetails : Cluster → ConnectionDetails;
  nilConnectionDetails : ConnectionDetails;
  SetConditions : ConditionedStatus → list Condition → ConditionedStatus;
  SetBindable : BindingPhase → BindingPhase;

  ClusterStateRunning : string;
  ClusterStateProvisioning : string;
  ClusterStateUnspecified : string;
  ClusterStateDegraded : string;
  ClusterStateError : string;
  ClusterStateReconciling : string;
  ClusterState_NoDup :
    NoDup [ClusterStateRunning; ClusterStateProvisioning; ClusterStateUnspecified;
           ClusterStateDegraded; ClusterStateError; ClusterStateReconciling]
}.

Section client.
Context `{Adapter}.

(** the fields of [v1beta1.GKECluster] the client reads or writes;
    [ExternalName] is what [meta.GetExternalName] returns *)
Record GKECluster := {
  ExternalName : string;
  ProviderReference : ProviderRef;
  ForProvider : GKEClusterParameters;
  AtProvider : GKEClusterObservation;
  Conditions : ConditionedStatus;
  Phase : BindingPhase }.

(** a [resource.Managed]: the type assertion to a GKECluster pointer
    succeeds on the first constructor only *)
Inductive Managed : Type :=
  | IsGKECluster (cr : GKECluster)
  | NotGKECluster (o : OtherManaged).

Record Provider := {
  SecretNamespace : string;
  SecretName : string;
  SecretKey : string;
  ProjectID : string }.

(** the calls that leave the process, in the order they are made *)
Inductive call : Type :=
  | KubeGetProvider (provider : ProviderRef)
  | KubeGetSecret (namespace name : string)
  | KubeUpdate (cr : GKECluster)
  | NewService (credentials : option string)
  | ClustersGet (name : string)
  | ClustersCreate (parent : string) (cluster : Cluster)
  | ClustersUpdate (fn : UpdateFn)
  | ClustersDelete (name : string).

(** [client.Client]: what the store answers.  [Update] receives the object
    by pointer: [kube_Update] is the error it returns, and [kube_Updated] the
    object as a successful Update leaves it, the answer of the store written
    back into it.  An Update that returns an error leaves the object as it
    was sent. *)
Record Kube := {
  kube_GetProvider : ProviderRef → Provider + error;
  kube_GetSecret : string → string → gmap string string + error;
  kube_Update : GKECluster → option error;
  kube_Updated : GKECluster → GKECluster }.

(** [container.Service]: what the provider answers.  [Do()] of a Get gives
    either the object or an error. *)
Record Service := {
  Clusters_Get : string → Cluster + error;
  Clusters_Create : string → Cluster → option error;
  Clusters_Delete : string → option error;
  runUpdateFn : UpdateFn → option error }.

Record gkeConnecter := {
  connecter_kube : Kube;
  newServiceFn : option string → option Service * option error }.

Record external := {
  kube : Kube;
  cluster : Service;
  projectID : string }.

Record ExternalObservation := {
  ResourceExists : bool;
  ResourceUpToDate : bool;
  obs_ConnectionDetails : ConnectionDetails }.

(** [resource.ExternalObservation{}] *)
Definition noObservation : ExternalObservation :=
  {| ResourceExists := false; ResourceUpToDate := false;
     obs_ConnectionDetails := nilConnectionDetails |}.

(** What one operation leaves behind: the value and error it returns, the
    managed resource as it stands afterwards, and the calls it made. *)
Record result (R : Type) := {
  value : R;
  failure : option error;
  managed : Managed;
  calls : list call }.
Arguments value {R} _.
Arguments failure {R} _.
Arguments managed {R} _.
Arguments calls {R} _.

Definition with_AtProvider (o : GKEClusterObservation) (cr : GKECluster) : GKECluster :=
  {| ExternalName := ExternalName cr; ProviderReference := ProviderReference cr;
     ForProvider := ForProvider cr; AtProvider := o;
     Conditions := Conditions cr; Phase := Phase cr |}.

Definition with_ForProvider (p : GKEClusterParameters) (cr : GKECluster) : GKECluster :=
  {| ExternalName := ExternalName cr; ProviderReference := ProviderReference cr;
     ForProvider := p; AtProvider := AtProvider cr;
     Conditions := Conditions cr; Phase := Phase cr |}.

(** [cr.Status.SetConditions(c)] *)
Definition setConditions (c : Condition) (cr : GKECluster) : GKECluster :=
  {| ExternalName := ExternalName cr; ProviderReference := ProviderReference cr;
     ForProvider := ForProvider cr; AtProvider := AtProvider cr;
     Conditions := SetConditions (Conditions cr) [c]; Phase := Phase cr |}.

(** [resource.SetBindable(cr)] *)
Definition setBindable (cr : GKECluster) : GKECluster :=
  {| ExternalName := ExternalName cr; ProviderReference := ProviderReference cr;
     ForProvider := ForProvider cr; AtProvider := AtProvider cr;
     Conditions := Conditions cr; Phase := SetBindable (Phase cr) |}.

Definition Connect (c : gkeConnecter) (mg : Managed) : outcome (result (option external)) :=
  match mg with
  | NotGKECluster _ =>
      Ok {| value := None; failure := Some (errors_New errNotCluster);
            managed := mg; calls := [] |}
  | IsGKECluster i =>
      let pref := ProviderReference i in
      match kube_GetProvider (connecter_kube c) pref with
      | inr err =>
          Ok {| value := None; failure := errors_Wrap (Some err) errGetProvider;
                managed := mg; calls := [KubeGetProvider pref] |}
      | inl p =>
          match kube_GetSecret (connecter_kube c) (SecretNamespace p) (SecretName p) with
          | inr err =>
              Ok {| value := None; failure := errors_Wrap (Some err) errGetProviderSecret;
                    managed := mg;
                    calls := [KubeGetProvider pref;
                              KubeGetSecret (SecretNamespace p) (SecretName p)] |}
          | inl s =>
              let credentials := s !! SecretKey p in
              let '(gke, err) := newServiceFn c credentials in
              g ← deref gke;
              Ok {| value := Some {| kube := connecter_kube c; cluster := g;
                                     projectID := ProjectID p |};
                    failure := errors_Wrap err errNewClient;
                    managed := mg;
                    calls := [KubeGetProvider pref;
                              KubeGetSecret (SecretNamespace p) (SecretName p);
                              NewService credentials] |}
          end
      end
  end.

(** the [switch] of Observe over [cr.Status.AtProvider.Status] *)
Definition setStatusCondition (cr : GKECluster) : GKECluster :=
  let st := obs_Status (AtProvider cr) in
  if decide (st = ClusterStateRunning) then setBindable (setConditions Available cr)
  else if decide (st = ClusterStateProvisioning) then setConditions Creating cr
  else if decide (st ∈ [ClusterStateUnspecified; ClusterStateDegraded;
                        ClusterStateError; ClusterStateReconciling])
  then setConditions Unavailable cr
  else cr.

Definition Observe (e : external) (mg : Managed) : result ExternalObservation :=
  match mg with
  | NotGKECluster _ =>
      {| value := noObservation; failure := Some (errors_New errNotCluster);
         managed := mg; calls := [] |}
  | IsGKECluster cr =>
      let name := ExternalName cr in
      match Clusters_Get (cluster e) name with
      | inr err =>
          {| value := noObservation;
             failure := errors_Wrap (resource_Ignore gcp_IsErrorNotFound (Some err)) errGetCluster;
             managed := mg; calls := [ClustersGet name] |}
      | inl existing =>
          let cr := with_AtProvider (gke_GenerateObservation existing) cr in
          let currentSpec := ForProvider cr in
          let cr := with_ForProvider (gke_LateInitializeSpec (ForProvider cr) existing) cr in
          let observed (cr : GKECluster) (stored : list call) :=
            let cr := setStatusCondition cr in
            let '(upToDate, _) := gke_IsUpToDate (ForProvider cr) existing in
            {| value := {| ResourceExists := true; ResourceUpToDate := upToDate;
                           obs_ConnectionDetails := connectionDetails existing |};
               failure := None;
               managed := IsGKECluster cr;
               calls := ClustersGet name :: stored |} in
          if bool_decide (currentSpec = ForProvider cr)
          then observed cr []
          else
            match kube_Update (kube e) cr with
            | Some err =>
                {| value := noObservation;
                   failure := errors_Wrap (Some err) errManagedUpdateFailed;
                   managed := IsGKECluster cr;
                   calls := [ClustersGet name; KubeUpdate cr] |}
            | None => observed (kube_Updated (kube e) cr) [KubeUpdate cr]
            end
      end
  end.

(** what Observe has made of the resource when it reaches the store: the
    observation written to the status, the spec late-initialised *)
Definition lateInitialized (cr : GKECluster) (existing : Cluster) : GKECluster :=
  with_ForProvider (gke_LateInitializeSpec (ForProvider cr) existing)
    (with_AtProvider (gke_GenerateObservation existing) cr).

(** the resource as Observe holds it when it reaches the status switch:
    late-initialised, and, if that changed the spec, as the store has left
    it *)
Definition atSwitch (e : external) (cr : GKECluster) (existing : Cluster) : GKECluster :=
  if bool_decide (ForProvider cr = ForProvider (lateInitialized cr existing))
  then lateInitialized cr existing
  else kube_Updated (kube e) (lateInitialized cr existing).

Definition Create (e : external) (mg : Managed) : result unit :=
  match mg with
  | NotGKECluster _ =>
      {| value := (); failure := Some (errors_New errNotCluster);
         managed := mg; calls := [] |}
  | IsGKECluster i =>
      let cluster_ := gke_GenerateCluster (ForProvider i) in
      {| value := ();
         failure := errors_Wrap (Clusters_Create (cluster e) "TODO" cluster_) errCreateCluster;
         managed := mg;
         calls := [ClustersCreate "TODO" cluster_] |}
  end.

Definition Update (e : external) (mg : Managed) : result unit :=
  match mg with
  | NotGKECluster _ =>
      {| value := (); failure := Some (errors_New errNotCluster);
         managed := mg; calls := [] |}
  | IsGKECluster i =>
      let name := ExternalName i in
      (* We have to get the cluster again here *)
      match Clusters_Get (cluster e) name with
      | inr err =>
          {| value := (); failure := errors_Wrap (Some err) errGetCluster;
             managed := mg; calls := [ClustersGet name] |}
      | inl existing =>
          let '(upToDate, updateFn) := gke_IsUpToDate (ForProvider i) existing in
          if upToDate
          then {| value := (); failure := None; managed := mg;
                  calls := [ClustersGet name] |}
          else {| value := ();
                  failure := errors_Wrap (runUpdateFn (cluster e) updateFn) errUpdateCluster;
                  managed := mg;
                  calls := [ClustersGet name; ClustersUpdate updateFn] |}
      end
  end.

Definition Delete (e : external) (mg : Managed) : result unit :=
  match mg with
  | NotGKECluster _ =>
      {| value := (); failure := Some (errors_New errNotCluster);
         managed := mg; calls := [] |}
  | IsGKECluster i =>
      let i := setConditions Deleting i in
      let name := ExternalName i in
      let err := Clusters_Delete (cluster e) name in
      {| value := ();
         failure := if gcp_IsErrorNotFound err then None
                    else errors_Wrap err errDeleteCluster;
         managed := IsGKECluster i;
         calls := [ClustersDelete name] |}
  end.

End client.

Arguments value {_ R} _.
Arguments failure {_ R} _.
Arguments managed {_ R} _.
Arguments calls {_ R} _.

End gkecluster.

(** ** A small cluster adapter, to run the client on concrete inputs *)

Module sample.
Import gkecluster.

Record Cluster := {
  c_Name : string;
  c_Status : string;
  c_MasterVersion : string }.

Inductive BindingPhase : Type :=
  | PhaseUnset
  | PhaseUnbound
  | PhaseBound.

Definition states_NoDup :
  NoDup ["RUNNING"; "PROVISIONING"; "STATUS_UNSPECIFIED"; "DEGRADED"; "ERROR"; "RECONCILING"].
Proof. apply (bool_decide_unpack _). vm_compute. exact I. Defined.

(** Modelled from the spec: an adapter of the shape sections 4.1 to 4.3
    describe, standing in for pkg/clients/container, which is not among the
    sources.  The desired parameters are one optional master version; the
    observation copies the provider's status verbatim; late initialisation
    adopts the observed version when none is set; the classifier compares the
    desired version with the one reconstructed from the observed cluster and
    selects the update that sets the desired version.  A condition set keeps
    at most one condition per type, and the four conditions used here share
    the type Ready; a resource becomes bindable unless it is already bound.
    NotFound is the provider's error with code 404. *)
Definition adapter : Adapter := {|
  GKEClusterParameters := option string;
  GKEClusterObservation := string;
  obs_Status := fun s => s;
  gkecluster.Cluster := Cluster;
  UpdateFn := string;
  ConnectionDetails := list (string * string);
  ProviderRef := string;
  OtherManaged := string;
  ConditionedStatus := option Condition;
  gkecluster.BindingPhase := BindingPhase;
  gke_GenerateObservation := c_Status;
  gke_LateInitializeSpec := fun p c => gcp.LateInitializeString p (c_MasterVersion c);
  gke_IsUpToDate := fun p c =>
    (bool_decide (p = gcp.LateInitializeString None (c_MasterVersion c)), gcp.StringValue p);
  gke_GenerateCluster := fun p =>
    {| c_Name := ""; c_Status := ""; c_MasterVersion := gcp.StringValue p |};
  gcp_IsErrorNotFound := fun err =>
    match err with
    | Some (foreign 404 _) => true
    | _ => false
    end;
  connectionDetails := fun c => [("endpoint", c_Name c)];
  nilConnectionDetails := [];
  SetConditions := fun cs new => from_option Some cs (last new);
  SetBindable := fun p => match p with PhaseBound => PhaseBound | _ => PhaseUnbound end;
  ClusterStateRunning := "RUNNING";
  ClusterStateProvisioning := "PROVISIONING";
  ClusterStateUnspecified := "STATUS_UNSPECIFIED";
  ClusterStateDegraded := "DEGRADED";
  ClusterStateError := "ERROR";
  ClusterStateReconciling := "RECONCILING";
  ClusterState_NoDup := states_NoDup
|}.

#[local] Existing Instance adapter.

(** a cluster resource that leaves the master version to the provider *)
Definition cr0 : GKECluster :=
  {| ExternalName := "gke-demo"; ProviderReference := "gcp-provider";
     ForProvider := None; AtProvider := "PROVISIONING";
     Conditions := Some Creating; Phase := PhaseUnset |}.

(** the same resource once the version has been pinned *)
Definition cr1 : GKECluster :=
  {| ExternalName := "gke-demo"; ProviderReference := "gcp-provider";
     ForProvider := Some "1.15"; AtProvider := "PROVISIONING";
     Conditions := Some Creating; Phase := PhaseUnset |}.

Definition running : Cluster :=
  {| c_Name := "gke-demo"; c_Status := "RUNNING"; c_MasterVersion := "1.14" |}.

Definition storeDown : error := foreign 503 "store unavailable".
Definition notFound : error := foreign 404 "not found".

(** a provider on which the cluster exists and every call succeeds *)
Definition gkeUp : Service :=
  {| Clusters_Get := fun _ => inl running;
     Clusters_Create := fun _ _ => None;
     Clusters_Delete := fun _ => None;
     runUpdateFn := fun _ => None |}.

(** a provider on which the cluster is gone *)
Definition gkeGone : Service :=
  {| Clusters_Get := fun _ => inr notFound;
     Clusters_Create := fun _ _ => None;
     Clusters_Delete := fun _ => Some notFound;
     runUpdateFn := fun _ => Some notFound |}.

Definition provider0 : Provider :=
  {| SecretNamespace := "crossplane-system"; SecretName := "gcp-creds";
     SecretKey := "credentials.json"; ProjectID := "demo-project" |}.

Definition kubeUp : Kube :=
  {| kube_GetProvider := fun _ => inl provider0;
     kube_GetSecret := fun _ _ => inl {[ "credentials.json" := "{}" ]};
     kube_Update := fun _ => None;
     kube_Updated := fun cr => cr |}.

(** a store that refuses writes *)
Definition kubeReadOnly : Kube :=
  {| kube_GetProvider := fun _ => inl provider0;
     kube_GetSecret := fun _ _ => inl {[ "credentials.json" := "{}" ]};
     kube_Update := fun _ => Some storeDown;
     kube_Updated := fun cr => cr |}.

Definition connecter0 : gkeConnecter :=
  {| connecter_kube := kubeUp; newServiceFn := fun _ => (Some gkeUp, None) |}.

Definition client (k : Kube) (s : Service) : external :=
  {| kube := k; cluster := s; projectID := "demo-project" |}.

End sample.

(** ** Node pools to run package nodepool on *)

Module pools.
Import nodepool.

(** the scenario of section 8: min 1, max 3, autoscaling enabled *)
Definition desiredAutoscaled : v1beta1.NodePoolParameters :=
  {| v1beta1.Cluster := None;
     v1beta1.Autoscaling :=
       Some {| v1beta1.Autoprovisioned := None; v1beta1.Enabled := Some true;
               v1beta1.MaxNodeCount := Some 3; v1beta1.MinNodeCount := Some 1 |};
     v1beta1.Config := None;
     v1beta1.InitialNodeCount := Some 3;
     v1beta1.Locations := Some ["us-central1-a"];
     v1beta1.Management := None;
     v1beta1.np_MaxPodsConstraint := None;
     v1beta1.Version := Some "1.14" |}.

(** the pool the provider reports in that scenario: max 5, and another version *)
Definition observedAutoscaled : container.NodePool :=
  {| container.Autoscaling :=
       Some {| container.Autoprovisioned := false; container.Enabled := true;
               container.MaxNodeCount := 5; container.MinNodeCount := 1 |};
     container.Config := None;
     container.Conditions := None;
     container.InitialNodeCount := 3;
     container.InstanceGroupUrls := None;
     container.Locations := Some ["us-central1-a"];
     container.Management := None;
     container.np_MaxPodsConstraint := None;
     container.Name := "pool-1";
     container.PodIpv4CidrSize := 24;
     container.SelfLink := "";
     container.Status := "RUNNING";
     container.StatusMessage := "";
     container.Version := "1.13" |}.

(** a spec whose autoscaling object is present with only [Enabled] set *)
Definition desiredEnabledOnly : v1beta1.NodePoolParameters :=
  {| v1beta1.Cluster := None;
     v1beta1.Autoscaling :=
       Some {| v1beta1.Autoprovisioned := None; v1beta1.Enabled := Some true;
               v1beta1.MaxNodeCount := None; v1beta1.MinNodeCount := None |};
     v1beta1.Config := None;
     v1beta1.InitialNodeCount := Some 3;
     v1beta1.Locations := Some ["us-central1-a"];
     v1beta1.Management := None;
     v1beta1.np_MaxPodsConstraint := None;
     v1beta1.Version := Some "1.14" |}.

(** a spec without optional sub-structures that names its cluster *)
Definition desiredPlain : v1beta1.NodePoolParameters :=
  {| v1beta1.Cluster := Some "projects/demo/locations/us-central1/clusters/gke-demo";
     v1beta1.Autoscaling := None;
     v1beta1.Config := None;
     v1beta1.InitialNodeCount := Some 3;
     v1beta1.Locations := Some ["us-central1-a"];
     v1beta1.Management := None;
     v1beta1.np_MaxPodsConstraint := None;
     v1beta1.Version := Some "1.14" |}.

(** the same without the cluster *)
Definition desiredUnattached : v1beta1.NodePoolParameters :=
  {| v1beta1.Cluster := None;
     v1beta1.Autoscaling := None;
     v1beta1.Config := None;
     v1beta1.InitialNodeCount := Some 3;
     v1beta1.Locations := Some ["us-central1-a"];
     v1beta1.Management := None;
     v1beta1.np_MaxPodsConstraint := None;
     v1beta1.Version := Some "1.14" |}.

(** a config whose accelerator list has a nil entry between two cards *)
Definition configWithNil : v1beta1.NodeConfig :=
  {| v1beta1.Accelerators :=
       Some [Some {| v1beta1.AcceleratorCount := 1;
                     v1beta1.AcceleratorType := "nvidia-tesla-k80" |};
             None;
             Some {| v1beta1.AcceleratorCount := 2;
                     v1beta1.AcceleratorType := "nvidia-tesla-p100" |}];
     v1beta1.DiskSizeGb := Some 100; v1beta1.DiskType := None;
     v1beta1.ImageType := Some "COS"; v1beta1.Labels := None;
     v1beta1.LocalSsdCount := None; v1beta1.MachineType := Some "n1-standard-1";
     v1beta1.Metadata := None; v1beta1.MinCPUPlatform := None;
     v1beta1.OauthScopes := None; v1beta1.Preemptible := None;
     v1beta1.cfg_SandboxConfig := None; v1beta1.ServiceAccount := None;
     v1beta1.cfg_ShieldedInstanceConfig := None; v1beta1.Tags := None;
     v1beta1.Taints := Some [None];
     v1beta1.cfg_WorkloadMetadataConfig := Some {| v1beta1.NodeMetadata := "SECURE" |} |}.

(** a provider object whose accelerator list holds a nil entry *)
Definition observedWithNil : container.NodePool :=
  {| container.Autoscaling := None;
     container.Config :=
       Some {| container.Accelerators := Some [None];
               container.DiskSizeGb := 100; container.DiskType := "pd-standard";
               container.ImageType := "COS"; container.Labels := None;
               container.LocalSsdCount := 0; container.MachineType := "n1-standard-1";
               container.Metadata := None; container.MinCpuPlatform := "";
               container.OauthScopes := None; container.Preemptible := false;
               container.cfg_SandboxConfig := None; container.ServiceAccount := "default";
               container.cfg_ShieldedInstanceConfig := None; container.Tags := None;
               container.Taints := None; container.cfg_WorkloadMetadataConfig := None |};
     container.Conditions := None;
     container.InitialNodeCount := 3;
     container.InstanceGroupUrls := None;
     container.Locations := Some ["us-central1-a"];
     container.Management := None;
     container.np_MaxPodsConstraint := None;
     container.Name := "pool-1";
     container.PodIpv4CidrSize := 24;
     container.SelfLink := "";
     container.Status := "RUNNING";
     container.StatusMessage := "";
     container.Version := "1.14" |}.

End pools.

(** ** What late initialisation may do to a field *)

Module lateinit.

Definition toAccelerator (a : option container.AcceleratorConfig) : option v1beta1.AcceleratorConfig :=
  a ← a;
  Some {| v1beta1.AcceleratorCount := container.AcceleratorCount a;
          v1beta1.AcceleratorType := container.AcceleratorType a |}.

Definition toTaint (t : option container.NodeTaint) : option v1beta1.NodeTaint :=
  t ← t;
  Some {| v1beta1.Effect := container.Effect t;
          v1beta1.Key := container.Key t;
          v1beta1.Value := container.Value t |}.

Definition toSandbox (s : container.SandboxConfig) : v1beta1.SandboxConfig :=
  {| v1beta1.SandboxType := container.SandboxType s |}.

Definition toWorkloadMetadata (w : container.WorkloadMetadataConfig) : v1beta1.WorkloadMetadataConfig :=
  {| v1beta1.NodeMetadata := container.NodeMetadata w |}.

Definition toMaxPods (m : container.MaxPodsConstraint) : v1beta1.MaxPodsConstraint :=
  {| v1beta1.MaxPodsPerNode := container.MaxPodsPerNode m |}.

(** a provider object none of whose accelerator or taint entries is nil *)
Definition noNilEntries (p : container.NodePool) : Prop :=
  ∀ c, container.Config p = Some c →
    Forall is_Some (elems (container.Accelerators c)) ∧
    Forall is_Some (elems (container.Taints c)).

(** A scalar pointer field after the call: the value it was set to, if it
    was set; otherwise the observed value, and still nil only where the
    observed value is the zero value of the type. *)
Definition filled {A} (zero : A) (before : option A) (observed : A) (after : option A)
    : Prop :=
  match before with
  | Some v => after = Some v
  | None => after = Some observed ∨ (observed = zero ∧ after = None)
  end.

(** A pointer to a nested object the code does not descend into: kept if
    present, otherwise the observed object (nil if the provider has none). *)
Definition installed {A} (before observed after : option A) : Prop :=
  after = match before with
          | Some _ => before
          | None => observed
          end.

(** A slice or map after the call: what it was, if it was not empty;
    otherwise the observed collection as a whole, and still what it was only
    where the observed collection is empty too. *)
Definition adopted {A} (before observed after : slice A) : Prop :=
  if decide (len before = 0%nat)
  then after = observed ∨ (len observed = 0%nat ∧ after = before)
  else after = before.

Definition adoptedMap (before observed after : gomap) : Prop :=
  if decide (maplen before = 0%nat)
  then after = observed ∨ (maplen observed = 0%nat ∧ after = before)
  else after = before.

(** A nested object the code descends into: untouched when the provider has
    none; otherwise present afterwards, each of its fields filled from the
    fields it had (those of the empty object when it was absent). *)
Definition additiveAutoscaling (before : option v1beta1.NodePoolAutoscaling)
    (observed : option container.NodePoolAutoscaling)
    (after : option v1beta1.NodePoolAutoscaling) : Prop :=
  match observed with
  | None => after = before
  | Some o =>
      ∃ a, after = Some a ∧
        let c := default v1beta1.emptyAutoscaling before in
        filled false (v1beta1.Autoprovisioned c) (container.Autoprovisioned o)
               (v1beta1.Autoprovisioned a) ∧
        filled false (v1beta1.Enabled c) (container.Enabled o) (v1beta1.Enabled a) ∧
        filled 0 (v1beta1.MaxNodeCount c) (container.MaxNodeCount o)
               (v1beta1.MaxNodeCount a) ∧
        filled 0 (v1beta1.MinNodeCount c) (container.MinNodeCount o)
               (v1beta1.MinNodeCount a)
  end.

Definition additiveManagement (before : option v1beta1.NodeManagementSpec)
    (observed : option container.NodeManagement)
    (after : option v1beta1.NodeManagementSpec) : Prop :=
  match observed with
  | None => after = before
  | Some o =>
      ∃ a, after = Some a ∧
        let c := default v1beta1.emptyManagement before in
        filled false (v1beta1.AutoRepair c) (container.AutoRepair o) (v1beta1.AutoRepair a) ∧
        filled false (v1beta1.AutoUpgrade c) (container.AutoUpgrade o) (v1beta1.AutoUpgrade a)
  end.

Definition additiveShielded (before : option v1beta1.ShieldedInstanceConfig)
    (observed : option container.ShieldedInstanceConfig)
    (after : option v1beta1.ShieldedInstanceConfig) : Prop :=
  match observed with
  | None => after = before
  | Some o =>
      ∃ a, after = Some a ∧
        let c := default v1beta1.emptyShielded before in
        filled false (v1beta1.EnableIntegrityMonitoring c)
               (container.EnableIntegrityMonitoring o)
               (v1beta1.EnableIntegrityMonitoring a) ∧
        filled false (v1beta1.EnableSecureBoot c) (container.EnableSecureBoot o)
               (v1beta1.EnableSecureBoot a)
  end.

Definition additiveConfig (before : option v1beta1.NodeConfig)
    (observed : option container.NodeConfig) (after : option v1beta1.NodeConfig) : Prop :=
  match observed with
  | None => after = before
  | Some o =>
      ∃ a, after = Some a ∧
        let c := default v1beta1.emptyConfig before in
        adopted (v1beta1.Accelerators c)
                (Some (toAccelerator <$> elems (container.Accelerators o)))
                (v1beta1.Accelerators a) ∧
        filled 0 (v1beta1.DiskSizeGb c) (container.DiskSizeGb o) (v1beta1.DiskSizeGb a) ∧
        filled "" (v1beta1.DiskType c) (container.DiskType o) (v1beta1.DiskType a) ∧
        filled "" (v1beta1.ImageType c) (container.ImageType o) (v1beta1.ImageType a) ∧
        adoptedMap (v1beta1.Labels c) (container.Labels o) (v1beta1.Labels a) ∧
        filled 0 (v1beta1.LocalSsdCount c) (container.LocalSsdCount o)
               (v1beta1.LocalSsdCount a) ∧
        filled "" (v1beta1.MachineType c) (container.MachineType o)
               (v1beta1.MachineType a) ∧
        adoptedMap (v1beta1.Metadata c) (container.Metadata o) (v1beta1.Metadata a) ∧
        filled "" (v1beta1.MinCPUPlatform c) (container.MinCpuPlatform o)
               (v1beta1.MinCPUPlatform a) ∧
        adopted (v1beta1.OauthScopes c) (container.OauthScopes o) (v1beta1.OauthScopes a) ∧
        filled false (v1beta1.Preemptible c) (container.Preemptible o)
               (v1beta1.Preemptible a) ∧
        installed (v1beta1.cfg_SandboxConfig c) (toSandbox <$> container.cfg_SandboxConfig o)
               (v1beta1.cfg_SandboxConfig a) ∧
        filled "" (v1beta1.ServiceAccount c) (container.ServiceAccount o)
               (v1beta1.ServiceAccount a) ∧
        additiveShielded (v1beta1.cfg_ShieldedInstanceConfig c)
               (container.cfg_ShieldedInstanceConfig o)
               (v1beta1.cfg_ShieldedInstanceConfig a) ∧
        adopted (v1beta1.Tags c) (container.Tags o) (v1beta1.Tags a) ∧
        adopted (v1beta1.Taints c) (Some (toTaint <$> elems (container.Taints o)))
                (v1beta1.Taints a) ∧
        installed (v1beta1.cfg_WorkloadMetadataConfig c)
               (toWorkloadMetadata <$> container.cfg_WorkloadMetadataConfig o)
               (v1beta1.cfg_WorkloadMetadataConfig a)
  end.

(** the whole record, field by field *)
Definition additive (before : v1beta1.NodePoolParameters) (observed : container.NodePool)
    (after : v1beta1.NodePoolParameters) : Prop :=
  v1beta1.Cluster after = v1beta1.Cluster before ∧
  additiveAutoscaling (v1beta1.Autoscaling before) (container.Autoscaling observed)
    (v1beta1.Autoscaling after) ∧
  additiveConfig (v1beta1.Config before) (container.Config observed) (v1beta1.Config after) ∧
  filled 0 (v1beta1.InitialNodeCount before) (container.InitialNodeCount observed)
    (v1beta1.InitialNodeCount after) ∧
  adopted (v1beta1.Locations before) (container.Locations observed)
    (v1beta1.Locations after) ∧
  additiveManagement (v1beta1.Management before) (container.Management observed)
    (v1beta1.Management after) ∧
  installed (v1beta1.np_MaxPodsConstraint before)
    (toMaxPods <$> container.np_MaxPodsConstraint observed)
    (v1beta1.np_MaxPodsConstraint after) ∧
  filled "" (v1beta1.Version before) (container.Version observed) (v1beta1.Version after).

End lateinit.

(** ** The GlobalAddress name referencer (apis/compute/v1alpha3) *)

Module globaladdress.

Inductive ReferenceStatusType : Type :=
  | ReferenceNotFound
  | ReferenceNotReady
  | ReferenceReady.

Record ReferenceStatus := {
  rs_Name : string;
  rs_Status : ReferenceStatusType }.

(** the embedded [corev1.LocalObjectReference] *)
Record GlobalAddressNameReferencer := { Name : string }.

Section referencer.

(** What the referencer uses and the sources do not contain: the
    GlobalAddress type with the name in its spec, the test
    [resource.IsConditionTrue(ga.GetCondition(TypeReady))], and
    [kerrors.IsNotFound].  A [client.Reader] is what its Get answers for a
    namespace and a name. *)
Context {GlobalAddress : Type}.
Variable spec_Name : GlobalAddress → string.
Variable isReady : GlobalAddress → bool.
Variable kerrors_IsNotFound : error → bool.

Definition Reader : Type := string → string → GlobalAddress + error.

Definition GetStatus (v : option GlobalAddressNameReferencer) (reader : Reader)
    : outcome (slice ReferenceStatus * option error) :=
  v ← deref v;
  match reader "" (Name v) with
  | inr err =>
      if kerrors_IsNotFound err
      then Ok (Some [{| rs_Name := Name v; rs_Status := ReferenceNotFound |}], None)
      else Ok (None, Some err)
  | inl ga =>
      if negb (isReady ga)
      then Ok (Some [{| rs_Name := Name v; rs_Status := ReferenceNotReady |}], None)
      else Ok (Some [{| rs_Name := Name v; rs_Status := ReferenceReady |}], None)
  end.

Definition Build (v : option GlobalAddressNameReferencer) (reader : Reader)
    : outcome (string * option error) :=
  v ← deref v;
  match reader "" (Name v) with
  | inr err => Ok ("", Some err)
  | inl ga => Ok (spec_Name ga, None)
  end.

End referencer.

End globaladdress.

(** ** Setting up the controllers (pkg/controller/gcp.go) *)

Module controller.

(** the controllers of the list in SetupWithManager, by package and type *)
Inductive Controller : Type :=
  | cache_CloudMemorystoreInstanceClaimSchedulingController
  | cache_CloudMemorystoreInstanceClaimDefaultingController
  | cache_CloudMemorystoreInstanceClaimController
  | cache_CloudMemorystoreInstanceController
  | computev1beta1_GKEClusterClaimSchedulingController
  | computev1beta1_GKEClusterClaimDefaultingController
  | computev1beta1_GKEClusterClaimController
  | computev1beta1_GKEClusterController
  | computev1alpha3_GlobalAddressController
  | computev1alpha3_GKEClusterClaimSchedulingController
  | computev1alpha3_GKEClusterClaimDefaultingController
  | computev1alpha3_GKEClusterClaimController
  | computev1alpha3_GKEClusterController
  | computev1alpha3_NetworkController
  | computev1alpha3_SubnetworkController
  | database_PostgreSQLInstanceClaimSchedulingController
  | database_PostgreSQLInstanceClaimDefaultingController
  | database_PostgreSQLInstanceClaimController
  | database_MySQLInstanceClaimSchedulingController
  | database_MySQLInstanceClaimDefaultingController
  | database_MySQLInstanceClaimController
  | database_CloudSQLInstanceController
  | servicenetworking_ConnectionController
  | storage_BucketClaimSchedulingController
  | storage_BucketClaimDefaultingController
  | storage_BucketClaimController
  | storage_BucketController.

#[global] Instance Controller_eq_dec : EqDecision Controller.
Proof. solve_decision. Defined.

Definition controllers : list Controller :=
  [ cache_CloudMemorystoreInstanceClaimSchedulingController;
    cache_CloudMemorystoreInstanceClaimDefaultingController;
    cache_CloudMemorystoreInstanceClaimController;
    cache_CloudMemorystoreInstanceController;
    computev1beta1_GKEClusterClaimSchedulingController;
    computev1beta1_GKEClusterClaimDefaultingController;
    computev1beta1_GKEClusterClaimController;
    computev1beta1_GKEClusterController;
    computev1alpha3_GlobalAddressController;
    computev1alpha3_GKEClusterClaimSchedulingController;
    computev1alpha3_GKEClusterClaimDefaultingController;
    computev1alpha3_GKEClusterClaimController;
    computev1alpha3_GKEClusterController;
    computev1alpha3_NetworkController;
    computev1alpha3_SubnetworkController;
    database_PostgreSQLInstanceClaimSchedulingController;
    database_PostgreSQLInstanceClaimDefaultingController;
    database_PostgreSQLInstanceClaimController;
    database_MySQLInstanceClaimSchedulingController;
    database_MySQLInstanceClaimDefaultingController;
    database_MySQLInstanceClaimController;
    database_CloudSQLInstanceController;
    servicenetworking_ConnectionController;
    storage_BucketClaimSchedulingController;
    storage_BucketClaimDefaultingController;
    storage_BucketClaimController;
    storage_BucketController ].

Section setup.

(** [ctrl.Manager] and the SetupWithManager method of each controller, which
    live in other packages: a controller registers itself with the manager
    and may fail. *)
Context {Manager : Type}.
Variable setup : Controller → Manager → Manager * option error.

(** What the loop leaves: the manager, the controllers whose
    SetupWithManager was called, in order, and the error returned. *)
Fixpoint setupEach (cs : list Controller) (mgr : Manager)
    : Manager * list Controller * option error :=
  match cs with
  | [] => (mgr, [], None)
  | c :: rest =>
      let '(mgr, err) := setup c mgr in
      match err with
      | Some e => (mgr, [c], Some e)
      | None =>
          let '(mgr, called, err) := setupEach rest mgr in
          (mgr, c :: called, err)
      end
  end.

Definition SetupWithManager (mgr : Manager) : Manager * list Controller * option error :=
  setupEach controllers mgr.

(** every controller of [cs] sets up without error, one after the other,
    taking the manager from [mgr] to [mgr'] *)
Inductive allSetUp : list Controller → Manager → Manager → Prop :=
  | allSetUp_nil mgr : allSetUp [] mgr mgr
  | allSetUp_cons c cs mgr mgr1 mgr' :
      setup c mgr = (mgr1, None) →
      allSetUp cs mgr1 mgr' →
      allSetUp (c :: cs) mgr mgr'.

End setup.

(** a manager that lists what registered with it, and a run in which the
    network controller of compute/v1alpha3 fails to set up *)
Definition networkFails (c : Controller) (mgr : list Controller)
    : list Controller * option error :=
  if decide (c = computev1alpha3_NetworkController)
  then (mgr, Some (errors_New "no cache"))
  else (mgr ++ [c], None).

End controller.

(** ** Generated accessors of the managed resources (zz_generated.managed.go) *)

Module managed.

(** The accessors of CryptoKey, CryptoKeyPolicy and KeyRing (apis/kms) are the
    same text over three types that embed the same resource spec and status;
    [Rest] stands for what each type has besides.  The reference types, the
    deletion policy and the conditioned status with its GetCondition and
    SetConditions belong to crossplane-runtime. *)
Section kms.
Context {Reference SecretReference DeletionPolicy : Type}.
Context {ConditionedStatus Condition ConditionType Rest : Type}.
Variable status_GetCondition : ConditionedStatus → ConditionType → Condition.
Variable status_SetConditions : ConditionedStatus → list Condition → ConditionedStatus.

Record Resource := {
  Spec_DeletionPolicy : DeletionPolicy;
  Spec_ProviderConfigReference : option Reference;
  Spec_ProviderReference : option Reference;
  Spec_WriteConnectionSecretToReference : option SecretReference;
  Status : ConditionedStatus;
  rest : Rest }.

Definition GetCondition (mg : option Resource) (ct : ConditionType) : outcome Condition :=
  m ← deref mg; Ok (status_GetCondition (Status m) ct).

Definition GetDeletionPolicy (mg : option Resource) : outcome DeletionPolicy :=
  m ← deref mg; Ok (Spec_DeletionPolicy m).

Definition GetProviderConfigReference (mg : option Resource) : outcome (option Reference) :=
  m ← deref mg; Ok (Spec_ProviderConfigReference m).

Definition GetProviderReference (mg : option Resource) : outcome (option Reference) :=
  m ← deref mg; Ok (Spec_ProviderReference m).

Definition GetWriteConnectionSecretToReference (mg : option Resource)
    : outcome (option SecretReference) :=
  m ← deref mg; Ok (Spec_WriteConnectionSecretToReference m).

(** the setters write through the receiver; each returns the resource after
    the call *)
Definition SetConditions (mg : option Resource) (c : list Condition) : outcome Resource :=
  m ← deref mg;
  Ok {| Spec_DeletionPolicy := Spec_DeletionPolicy m;
        Spec_ProviderConfigReference := Spec_ProviderConfigReference m;
        Spec_ProviderReference := Spec_ProviderReference m;
        Spec_WriteConnectionSecretToReference := Spec_WriteConnectionSecretToReference m;
        Status := status_SetConditions (Status m) c;
        rest := rest m |}.

Definition SetDeletionPolicy (mg : option Resource) (r : DeletionPolicy) : outcome Resource :=
  m ← deref mg;
  Ok {| Spec_DeletionPolicy := r;
        Spec_ProviderConfigReference := Spec_ProviderConfigReference m;
        Spec_ProviderReference := Spec_ProviderReference m;
        Spec_WriteConnectionSecretToReference := Spec_WriteConnectionSecretToReference m;
        Status := Status m;
        rest := rest m |}.

Definition SetProviderConfigReference (mg : option Resource) (r : option Reference)
    : outcome Resource :=
  m ← deref mg;
  Ok {| Spec_DeletionPolicy := Spec_DeletionPolicy m;
        Spec_ProviderConfigReference := r;
        Spec_ProviderReference := Spec_ProviderReference m;
        Spec_WriteConnectionSecretToReference := Spec_WriteConnectionSecretToReference m;
        Status := Status m;
        rest := rest m |}.

Definition SetProviderReference (mg : option Resource) (r : option Reference)
    : outcome Resource :=
  m ← deref mg;
  Ok {| Spec_DeletionPolicy := Spec_DeletionPolicy m;
        Spec_ProviderConfigReference := Spec_ProviderConfigReference m;
        Spec_ProviderReference := r;
        Spec_WriteConnectionSecretToReference := Spec_WriteConnectionSecretToReference m;
        Status := Status m;
        rest := rest m |}.

Definition SetWriteConnectionSecretToReference (mg : option Resource)
    (r : option SecretReference) : outcome Resource :=
  m ← deref mg;
  Ok {| Spec_DeletionPolicy := Spec_DeletionPolicy m;
        Spec_ProviderConfigReference := Spec_ProviderConfigReference m;
        Spec_ProviderReference := Spec_ProviderReference m;
        Spec_WriteConnectionSecretToReference := r;
        Status := Status m;
        rest := rest m |}.

End kms.

Arguments Resource : clear implicits.

End managed.

(** ** The servicenetworking Connection (zz_generated.managed.go) *)

Module connection.

(** [Status] is the resource status of crossplane-runtime, which keeps the
    binding phase and the conditions; its four methods are taken as given. *)
Section accessors.
Context {ObjectReference SecretReference ReclaimPolicy BindingPhase : Type}.
Context {ResourceStatus Condition ConditionType Rest : Type}.
Variable status_GetBindingPhase : ResourceStatus → BindingPhase.
Variable status_SetBindingPhase : ResourceStatus → BindingPhase → ResourceStatus.
Variable status_GetCondition : ResourceStatus → ConditionType → Condition.
Variable status_SetConditions : ResourceStatus → list Condition → ResourceStatus.

Record Connection := {
  Spec_ClaimReference : option ObjectReference;
  Spec_ClassReference : option ObjectReference;
  Spec_ReclaimPolicy : ReclaimPolicy;
  Spec_WriteConnectionSecretToReference : option SecretReference;
  Status : ResourceStatus;
  rest : Rest }.

Definition GetBindingPhase (mg : option Connection) : outcome BindingPhase :=
  m ← deref mg; Ok (status_GetBindingPhase (Status m)).

Definition GetClaimReference (mg : option Connection) : outcome (option ObjectReference) :=
  m ← deref mg; Ok (Spec_ClaimReference m).

Definition GetClassReference (mg : option Connection) : outcome (option ObjectReference) :=
  m ← deref mg; Ok (Spec_ClassReference m).

Definition GetCondition (mg : option Connection) (ct : ConditionType) : outcome Condition :=
  m ← deref mg; Ok (status_GetCondition (Status m) ct).

Definition GetReclaimPolicy (mg : option Connection) : outcome ReclaimPolicy :=
  m ← deref mg; Ok (Spec_ReclaimPolicy m).

Definition GetWriteConnectionSecretToReference (mg : option Connection)
    : outcome (option SecretReference) :=
  m ← deref mg; Ok (Spec_WriteConnectionSecretToReference m).

Definition with_Status (st : ResourceStatus) (m : Connection) : Connection :=
  {| Spec_ClaimReference := Spec_ClaimReference m;
     Spec_ClassReference := Spec_ClassReference m;
     Spec_ReclaimPolicy := Spec_ReclaimPolicy m;
     Spec_WriteConnectionSecretToReference := Spec_WriteConnectionSecretToReference m;
     Status := st;
     rest := rest m |}.

Definition SetBindingPhase (mg : option Connection) (p : BindingPhase) : outcome Connection :=
  m ← deref mg; Ok (with_Status (status_SetBindingPhase (Status m) p) m).

Definition SetClaimReference (mg : option Connection) (r : option ObjectReference)
    : outcome Connection :=
  m ← deref mg;
  Ok {| Spec_ClaimReference := r;
        Spec_ClassReference := Spec_ClassReference m;
        Spec_ReclaimPolicy := Spec_ReclaimPolicy m;
        Spec_WriteConnectionSecretToReference := Spec_WriteConnectionSecretToReference m;
        Status := Status m;
        rest := rest m |}.

Definition SetClassReference (mg : option Connection) (r : option ObjectReference)
    : outcome Connection :=
  m ← deref mg;
  Ok {| Spec_ClaimReference := Spec_ClaimReference m;
        Spec_ClassReference := r;
        Spec_ReclaimPolicy := Spec_ReclaimPolicy m;
        Spec_WriteConnectionSecretToReference := Spec_WriteConnectionSecretToReference m;
        Status := Status m;
        rest := rest m |}.

Definition SetConditions (mg : option Connection) (c : list Condition) : outcome Connection :=
  m ← deref mg; Ok (with_Status (status_SetConditions (Status m) c) m).

Definition SetReclaimPolicy (mg : option Connection) (r : ReclaimPolicy) : outcome Connection :=
  m ← deref mg;
  Ok {| Spec_ClaimReference := Spec_ClaimReference m;
        Spec_ClassReference := Spec_ClassReference m;
        Spec_ReclaimPolicy := r;
        Spec_WriteConnectionSecretToReference := Spec_WriteConnectionSecretToReference m;
        Status := Status m;
        rest := rest m |}.

Definition SetWriteConnectionSecretToReference (mg : option Connection)
    (r : option SecretReference) : outcome Connection :=
  m ← deref mg;
  Ok {| Spec_ClaimReference := Spec_ClaimReference m;
        Spec_ClassReference := Spec_ClassReference m;
        Spec_ReclaimPolicy := Spec_ReclaimPolicy m;
        Spec_WriteConnectionSecretToReference := r;
        Status := Status m;
        rest := rest m |}.

End accessors.

Arguments Connection : clear implicits.

End connection.

(** ** More inputs to run the code on *)

Module runs.
Import gkecluster sample.
#[local] Existing Instance adapter.

(** an address is its name in the spec and whether it is ready; NotFound is
    code 404 *)
Definition addresses : globaladdress.Reader (GlobalAddress := string * bool) :=
  fun namespace name =>
    if decide (namespace = "" ∧ name = "my-address") then inl ("address-7f3", true)
    else inr (foreign 404 "not found").

Definition is404 (e : error) : bool :=
  match e with
  | foreign 404 _ => true
  | _ => false
  end.

(** a provider on which the cluster is being torn down *)
Definition gkeStopping : Service :=
  {| Clusters_Get := fun _ =>
       inl {| c_Name := "gke-demo"; c_Status := "STOPPING"; c_MasterVersion := "1.15" |};
     Clusters_Create := fun _ _ => None;
     Clusters_Delete := fun _ => None;
     runUpdateFn := fun _ => None |}.

(** a store that accepts the spec and answers with the status it has on
    record, as a store that keeps the status apart from the spec does *)
Definition kubeStaleStatus : Kube :=
  {| kube_GetProvider := fun _ => inl provider0;
     kube_GetSecret := fun _ _ => inl {[ "credentials.json" := "{}" ]};
     kube_Update := fun _ => None;
     kube_Updated := fun cr => with_AtProvider "PROVISIONING" cr |}.

(** a store without the Provider *)
Definition kubeNoProvider : Kube :=
  {| kube_GetProvider := fun _ => inr notFound;
     kube_GetSecret := fun _ _ => inr notFound;
     kube_Update := fun _ => None;
     kube_Updated := fun cr => cr |}.

(** a store whose Secret cannot be read *)
Definition kubeNoSecret : Kube :=
  {| kube_GetProvider := fun _ => inl provider0;
     kube_GetSecret := fun _ _ => inr storeDown;
     kube_Update := fun _ => None;
     kube_Updated := fun cr => cr |}.

(** a connecter whose service constructor fails the usual way: no service,
    and an error *)
Definition connecterBroken : gkeConnecter :=
  {| connecter_kube := kubeUp;
     newServiceFn := fun _ => (None, Some (errors_New "bad credentials")) |}.

End runs.

(** ** What the generating loops keep *)

Module generated.

(** the non-nil entries of a list of pointers, in order *)
Definition nonNil {A} (l : list (option A)) : list A := omap id l.

Definition fromAccelerator (a : v1beta1.AcceleratorConfig) : container.AcceleratorConfig :=
  {| container.AcceleratorCount := v1beta1.AcceleratorCount a;
     container.AcceleratorType := v1beta1.AcceleratorType a |}.

Definition fromTaint (t : v1beta1.NodeTaint) : container.NodeTaint :=
  {| container.Effect := v1beta1.Effect t;
     container.Key := v1beta1.Key t;
     container.Value := v1beta1.Value t |}.

Definition fromCondition (c : container.StatusCondition) : v1beta1.StatusCondition :=
  {| v1beta1.Code := container.Code c;
     v1beta1.Message := container.Message c |}.

(** what a loop that converts and appends the non-nil entries of [l] leaves
    in a slice that was nil before it: nil again when there was nothing to
    append *)
Definition converted {A B} (f : A → B) (l : list (option A)) : slice (option B) :=
  match nonNil l with
  | [] => None
  | _ => Some ((λ a, Some (f a)) <$> nonNil l)
  end.

End generated.

(** * Properties of package nodepool *)

Module nodepool_props.
Import nodepool lateinit.

Ltac run := unfold mbind, outcome_bind, mret, outcome_ret; simpl.

Lemma cmp_Equal_true {A} `{EqDecision A} (x y : A) : cmp_Equal x y = true ↔ x = y.
Proof. unfold cmp_Equal. rewrite bool_decide_eq_true. done. Qed.

Lemma cmp_Equal_false {A} `{EqDecision A} (x y : A) : cmp_Equal x y = false ↔ x ≠ y.
Proof. unfold cmp_Equal. rewrite bool_decide_eq_false. done. Qed.

(** ** The loops of late initialisation *)

Lemma fillAccelerators_Ok src : ∀ i dst,
  Forall is_Some src → (i + length src ≤ length dst)%nat →
  fillAccelerators i src dst =
    Ok (take i dst ++ map toAccelerator src ++ drop (i + length src) dst).
Proof.
  induction src as [|a src IH]; intros i dst Hsome Hlen; simpl in *.
  - rewrite Nat.add_0_r, take_drop. done.
  - apply Forall_cons in Hsome as [[a' ->] Hsome]. run.
    rewrite IH; [ | done | rewrite length_insert; lia ].
    f_equal.
    rewrite (take_S_r _ i _ (list_lookup_insert_eq dst i _ ltac:(lia))).
    rewrite take_insert_ge by lia.
    rewrite drop_insert_lt by lia.
    rewrite <- app_assoc. simpl.
    by replace (S (i + length src)) with (i + S (length src))%nat by lia.
Qed.

Lemma fillAccelerators_inv src : ∀ i dst l,
  fillAccelerators i src dst = Ok l → Forall is_Some src.
Proof.
  induction src as [|[a|] src IH]; intros i dst l Hrun; simpl in *.
  - constructor.
  - constructor; [by eexists | by eapply IH].
  - discriminate.
Qed.

Lemma fillTaints_Ok src : ∀ i dst,
  Forall is_Some src → (i + length src ≤ length dst)%nat →
  fillTaints i src dst = Ok (take i dst ++ map toTaint src ++ drop (i + length src) dst).
Proof.
  induction src as [|a src IH]; intros i dst Hsome Hlen; simpl in *.
  - rewrite Nat.add_0_r, take_drop. done.
  - apply Forall_cons in Hsome as [[a' ->] Hsome]. run.
    rewrite IH; [ | done | rewrite length_insert; lia ].
    f_equal.
    rewrite (take_S_r _ i _ (list_lookup_insert_eq dst i _ ltac:(lia))).
    rewrite take_insert_ge by lia.
    rewrite drop_insert_lt by lia.
    rewrite <- app_assoc. simpl.
    by replace (S (i + length src)) with (i + S (length src))%nat by lia.
Qed.

Lemma fillTaints_inv src : ∀ i dst l,
  fillTaints i src dst = Ok l → Forall is_Some src.
Proof.
  induction src as [|[a|] src IH]; intros i dst l Hrun; simpl in *.
  - constructor.
  - constructor; [by eexists | by eapply IH].
  - discriminate.
Qed.

Lemma make_filled {A B} (f : A → option B) (src : list A) :
  take 0 (make (length src)) ++ map f src ++ drop (0 + length src) (make (length src))
  = f <$> src.
Proof.
  simpl. rewrite drop_ge by (unfold make; rewrite length_replicate; lia).
  by rewrite app_nil_r.
Qed.

Lemma lateInitAccelerators_Ok cur obs :
  Forall is_Some (elems obs) →
  ∃ r, lateInitAccelerators cur obs = Ok r.
Proof.
  intros Hsome. unfold lateInitAccelerators. case_decide; [|by eexists].
  rewrite fillAccelerators_Ok; [by eexists | done |].
  unfold make, len. rewrite length_replicate. lia.
Qed.

Lemma lateInitAccelerators_adopted cur obs r :
  lateInitAccelerators cur obs = Ok r →
  adopted cur (Some (toAccelerator <$> elems obs)) r.
Proof.
  unfold lateInitAccelerators, adopted. case_decide as Hc.
  - destruct (fillAccelerators 0 (elems obs) (make (len obs))) as [l|] eqn:Hfill;
      [|discriminate].
    run. intros [= <-]. rewrite decide_True by tauto. left.
    pose proof (fillAccelerators_inv _ _ _ _ Hfill) as Hsome.
    rewrite fillAccelerators_Ok in Hfill;
      [ | done | unfold make, len; rewrite length_replicate; lia ].
    injection Hfill as <-. f_equal. apply make_filled.
  - intros [= <-]. case_decide as Hlen; [|done]. right. split; [|done].
    unfold len at 1. simpl. rewrite length_fmap. fold (len obs).
    destruct (decide (len obs = 0%nat)); [done | tauto].
Qed.

Lemma lateInitTaints_Ok cur obs :
  Forall is_Some (elems obs) →
  ∃ r, lateInitTaints cur obs = Ok r.
Proof.
  intros Hsome. unfold lateInitTaints. case_decide; [|by eexists].
  rewrite fillTaints_Ok; [by eexists | done |].
  unfold make, len. rewrite length_replicate. lia.
Qed.

Lemma lateInitTaints_adopted cur obs r :
  lateInitTaints cur obs = Ok r →
  adopted cur (Some (toTaint <$> elems obs)) r.
Proof.
  unfold lateInitTaints, adopted. case_decide as Hc.
  - destruct (fillTaints 0 (elems obs) (make (len obs))) as [l|] eqn:Hfill;
      [|discriminate].
    run. intros [= <-]. rewrite decide_True by tauto. left.
    pose proof (fillTaints_inv _ _ _ _ Hfill) as Hsome.
    rewrite fillTaints_Ok in Hfill;
      [ | done | unfold make, len; rewrite length_replicate; lia ].
    injection Hfill as <-. f_equal. apply make_filled.
  - intros [= <-]. case_decide as Hlen; [|done]. right. split; [|done].
    unfold len at 1. simpl. rewrite length_fmap. fold (len obs).
    destruct (decide (len obs = 0%nat)); [done | tauto].
Qed.

(** ** The helpers fill, they never overwrite *)

Lemma LateInitializeBool_filled b from :
  filled false b from (gcp.LateInitializeBool b from).
Proof. destruct b; [done | by left]. Qed.

Lemma LateInitializeInt64_filled i from :
  filled 0 i from (gcp.LateInitializeInt64 i from).
Proof. destruct i; [done | by left]. Qed.

Lemma LateInitializeString_filled s from :
  filled "" s from (gcp.LateInitializeString s from).
Proof. destruct s; [done | by left]. Qed.

Lemma LateInitializeStringSlice_adopted s from :
  adopted s from (gcp.LateInitializeStringSlice s from).
Proof.
  unfold gcp.LateInitializeStringSlice, adopted. case_decide; [by left | done].
Qed.

Lemma LateInitializeStringMap_adopted s from :
  adoptedMap s from (gcp.LateInitializeStringMap s from).
Proof.
  unfold gcp.LateInitializeStringMap, adoptedMap. case_decide; [by left | done].
Qed.

Create HintDb lateinit.

#[local] Hint Resolve LateInitializeBool_filled LateInitializeInt64_filled
  LateInitializeString_filled LateInitializeStringSlice_adopted
  LateInitializeStringMap_adopted : lateinit.

Lemma filled_kept {A} (zero : A) (before : option A) observed after v :
  filled zero before observed after → before = Some v → after = Some v.
Proof. by intros Hf ->. Qed.

Lemma filled_takes {A} (zero : A) observed after :
  filled zero None observed after → observed ≠ zero → after = Some observed.
Proof. intros [-> | [-> _]]; done. Qed.

Lemma adopted_kept {A} (before observed after : slice A) :
  adopted before observed after → len before ≠ 0%nat → after = before.
Proof. unfold adopted. intros Had Hlen. by rewrite decide_False in Had. Qed.

Lemma adopted_takes {A} (before observed after : slice A) :
  adopted before observed after → len before = 0%nat → len observed ≠ 0%nat →
  after = observed.
Proof.
  unfold adopted. intros Had Hlen Hobs. rewrite decide_True in Had by done.
  destruct Had as [-> | [Hz _]]; done.
Qed.

Lemma adoptedMap_kept (before observed after : gomap) :
  adoptedMap before observed after → maplen before ≠ 0%nat → after = before.
Proof. unfold adoptedMap. intros Had Hlen. by rewrite decide_False in Had. Qed.

Lemma lateInitSandbox_filled cur obs :
  installed cur (toSandbox <$> obs) (lateInitSandbox cur obs).
Proof. by destruct obs, cur. Qed.

Lemma lateInitWorkloadMetadata_filled cur obs :
  installed cur (toWorkloadMetadata <$> obs) (lateInitWorkloadMetadata cur obs).
Proof. by destruct obs, cur. Qed.

Lemma lateInitMaxPods_filled cur obs :
  installed cur (toMaxPods <$> obs) (lateInitMaxPods cur obs).
Proof. by destruct obs, cur. Qed.

Lemma lateInitAutoscaling_additive cur obs :
  additiveAutoscaling cur obs (lateInitAutoscaling cur obs).
Proof.
  destruct obs as [o|]; simpl; [|done].
  eexists; split; [done|]. simpl. repeat split; auto with lateinit.
Qed.

Lemma lateInitManagement_additive cur obs :
  additiveManagement cur obs (lateInitManagement cur obs).
Proof.
  destruct obs as [o|]; simpl; [|done].
  eexists; split; [done|]. simpl. repeat split; auto with lateinit.
Qed.

Lemma lateInitShielded_additive cur obs :
  additiveShielded cur obs (lateInitShielded cur obs).
Proof.
  destruct obs as [o|]; simpl; [|done].
  eexists; split; [done|]. simpl. repeat split; auto with lateinit.
Qed.

Lemma lateInitConfig_additive cur obs r :
  lateInitConfig cur obs = Ok r → additiveConfig cur obs r.
Proof.
  destruct obs as [o|]; simpl; [|by intros [= <-]].
  destruct (lateInitAccelerators _ _) as [accelerators|] eqn:Hacc; [|discriminate].
  destruct (lateInitTaints _ _) as [taints|] eqn:Htaints; [|discriminate].
  run. intros [= <-]. eexists; split; [done|]. simpl.
  repeat split;
    auto using lateInitAccelerators_adopted, lateInitTaints_adopted,
      lateInitSandbox_filled, lateInitWorkloadMetadata_filled,
      lateInitShielded_additive with lateinit.
Qed.

Lemma lateInitConfig_Ok cur obs :
  (∀ c, obs = Some c →
     Forall is_Some (elems (container.Accelerators c)) ∧
     Forall is_Some (elems (container.Taints c))) →
  ∃ r, lateInitConfig cur obs = Ok r.
Proof.
  intros Hwf. destruct obs as [o|]; simpl; [|by eexists].
  destruct (Hwf o eq_refl) as [Hacc Htaints].
  destruct (lateInitAccelerators_Ok (v1beta1.Accelerators (default v1beta1.emptyConfig cur))
              _ Hacc) as [a ->].
  destruct (lateInitTaints_Ok (v1beta1.Taints (default v1beta1.emptyConfig cur))
              _ Htaints) as [t ->].
  run. by eexists.
Qed.

(** Late initialisation returns on every provider object without nil
    entries, whatever the spec. *)
Lemma LateInitializeSpec_returns spec in_ :
  noNilEntries in_ → ∃ after, LateInitializeSpec (Some spec) in_ = Ok after.
Proof.
  intros Hwf. unfold LateInitializeSpec. run.
  destruct (lateInitConfig_Ok (v1beta1.Config spec) _ Hwf) as [c ->].
  run. by eexists.
Qed.

Lemma LateInitializeSpec_additive spec in_ after :
  LateInitializeSpec (Some spec) in_ = Ok after → additive spec in_ after.
Proof.
  unfold LateInitializeSpec. run.
  destruct (lateInitConfig _ _) as [c|] eqn:Hc; [|discriminate].
  run. intros [= <-]. unfold additive. simpl.
  repeat split;
    auto using lateInitAutoscaling_additive, lateInitManagement_additive,
      lateInitConfig_additive, lateInitMaxPods_filled with lateinit.
Qed.

(** ** The drift classifier *)

Lemma IsUpToDate_unfold in_ currentState cur :
  LateInitializeSpec (Some v1beta1.emptyParameters) currentState = Ok cur →
  IsUpToDate (Some in_) currentState =
    Ok (if negb (cmp_Equal (v1beta1.Autoscaling in_) (v1beta1.Autoscaling cur))
        then (false, AutoscalingUpdate)
        else if negb (cmp_Equal (v1beta1.Management in_) (v1beta1.Management cur))
        then (false, ManagementUpdate)
        else if negb (cmp_Equal (Some in_) (Some cur))
        then (false, GeneralUpdate)
        else (true, NoUpdate)).
Proof.
  intros Hcur. unfold IsUpToDate. rewrite Hcur. run.
  repeat (destruct (negb _); [done|]). done.
Qed.

(** The classifier returns on every desired spec and every provider object
    without nil entries. *)
Lemma IsUpToDate_returns in_ currentState :
  noNilEntries currentState → ∃ b k, IsUpToDate (Some in_) currentState = Ok (b, k).
Proof.
  intros Hwf.
  destruct (LateInitializeSpec_returns v1beta1.emptyParameters _ Hwf) as [cur Hcur].
  rewrite (IsUpToDate_unfold _ _ _ Hcur).
  repeat (destruct (negb _); [by do 2 eexists|]). by do 2 eexists.
Qed.

Lemma IsUpToDate_first_difference_wins_aux
    (in_ : v1beta1.NodePoolParameters) (currentState : container.NodePool)
    (cur : v1beta1.NodePoolParameters) :
  LateInitializeSpec (Some v1beta1.emptyParameters) currentState = Ok cur →
  (v1beta1.Autoscaling in_ ≠ v1beta1.Autoscaling cur →
     IsUpToDate (Some in_) currentState = Ok (false, AutoscalingUpdate)) ∧
  (v1beta1.Autoscaling in_ = v1beta1.Autoscaling cur →
   v1beta1.Management in_ ≠ v1beta1.Management cur →
     IsUpToDate (Some in_) currentState = Ok (false, ManagementUpdate)) ∧
  (v1beta1.Autoscaling in_ = v1beta1.Autoscaling cur →
   v1beta1.Management in_ = v1beta1.Management cur →
   in_ ≠ cur →
     IsUpToDate (Some in_) currentState = Ok (false, GeneralUpdate)) ∧
  (in_ = cur → IsUpToDate (Some in_) currentState = Ok (true, NoUpdate)).
Proof.
  intros Hcur. rewrite (IsUpToDate_unfold _ _ _ Hcur).
  repeat split.
  - intros Ha. apply cmp_Equal_false in Ha. by rewrite Ha.
  - intros Ha Hm. apply cmp_Equal_true in Ha. apply cmp_Equal_false in Hm.
    by rewrite Ha, Hm.
  - intros Ha Hm Hne. apply cmp_Equal_true in Ha. apply cmp_Equal_true in Hm.
    assert (cmp_Equal (Some in_) (Some cur) = false) as Hg
      by (apply cmp_Equal_false; congruence).
    by rewrite Ha, Hm, Hg.
  - intros ->. by rewrite !(proj2 (cmp_Equal_true _ _) eq_refl).
Qed.

Lemma noNilEntries_observedAutoscaled : noNilEntries pools.observedAutoscaled.
Proof. intros c Hc. simpl in Hc. discriminate Hc. Defined.

(** C1, as the code has it.  On every observed pool none of whose
    accelerator or taint entries is nil, late initialisation of an empty spec
    returns a reconstructed spec [cur], and for every desired spec: if the
    desired autoscaling differs from that of [cur], IsUpToDate returns
    (false, AutoscalingUpdate), whatever the other fields are; if autoscaling
    agrees and management differs it returns (false, ManagementUpdate); if
    both agree and the specs differ it returns (false, GeneralUpdate); if the
    specs are equal it returns (true, NoUpdate).  The first differing
    category wins and one classification is reported. *)
Theorem IsUpToDate_first_difference_wins
    (in_ : v1beta1.NodePoolParameters) (currentState : container.NodePool) :
  noNilEntries currentState →
  ∃ cur, LateInitializeSpec (Some v1beta1.emptyParameters) currentState = Ok cur ∧
    (v1beta1.Autoscaling in_ ≠ v1beta1.Autoscaling cur →
       IsUpToDate (Some in_) currentState = Ok (false, AutoscalingUpdate)) ∧
    (v1beta1.Autoscaling in_ = v1beta1.Autoscaling cur →
     v1beta1.Management in_ ≠ v1beta1.Management cur →
       IsUpToDate (Some in_) currentState = Ok (false, ManagementUpdate)) ∧
    (v1beta1.Autoscaling in_ = v1beta1.Autoscaling cur →
     v1beta1.Management in_ = v1beta1.Management cur →
     in_ ≠ cur →
       IsUpToDate (Some in_) currentState = Ok (false, GeneralUpdate)) ∧
    (in_ = cur → IsUpToDate (Some in_) currentState = Ok (true, NoUpdate)).
Proof.
  intros Hwf.
  destruct (LateInitializeSpec_returns v1beta1.emptyParameters _ Hwf) as [cur Hcur].
  exists cur. split; [done|]. by apply IsUpToDate_first_difference_wins_aux.
Qed.

Lemma IsUpToDate_first_difference_wins_witness :
  IsUpToDate (Some pools.desiredAutoscaled) pools.observedAutoscaled
  = Ok (false, AutoscalingUpdate).
Proof.
  destruct (IsUpToDate_first_difference_wins pools.desiredAutoscaled
              pools.observedAutoscaled noNilEntries_observedAutoscaled)
    as (cur & Hcur & Hauto & _).
  apply Hauto. vm_compute in Hcur. injection Hcur as <-. discriminate.
Defined.

(** C1, as stated, fails on an observed pool with a nil accelerator entry:
    the desired autoscaling differs from the one rebuilt from the pool, which
    has none, and IsUpToDate panics in the reconstruction of the config
    instead of returning a classification. *)
Lemma IsUpToDate_panics_on_nil_entry :
  v1beta1.Autoscaling pools.desiredAutoscaled
    ≠ lateInitAutoscaling None (container.Autoscaling pools.observedWithNil) ∧
  IsUpToDate (Some pools.desiredAutoscaled) pools.observedWithNil = Panic.
Proof. split; [discriminate | reflexivity]. Qed.

(** C10.  Whenever IsUpToDate returns, its boolean is true exactly when the
    classification is NoUpdate, and the classification is NoUpdate,
    AutoscalingUpdate, ManagementUpdate or GeneralUpdate, never SizeUpdate. *)
Theorem IsUpToDate_flag_and_kind
    (in_ : option v1beta1.NodePoolParameters) (currentState : container.NodePool)
    (b : bool) (k : UpdateKind) :
  IsUpToDate in_ currentState = Ok (b, k) →
  (b = true ↔ k = NoUpdate) ∧
  (k = NoUpdate ∨ k = AutoscalingUpdate ∨ k = ManagementUpdate ∨ k = GeneralUpdate) ∧
  k ≠ SizeUpdate.
Proof.
  unfold IsUpToDate.
  destruct (LateInitializeSpec _ _) as [cur|]; [|discriminate].
  destruct in_ as [i|]; [|discriminate]. run.
  repeat (destruct (negb _); [intros [= <- <-]; naive_solver|]).
  intros [= <- <-]. naive_solver.
Qed.

Lemma IsUpToDate_flag_and_kind_witness :
  (false = true ↔ AutoscalingUpdate = NoUpdate) ∧
  (AutoscalingUpdate = NoUpdate ∨ AutoscalingUpdate = AutoscalingUpdate ∨
   AutoscalingUpdate = ManagementUpdate ∨ AutoscalingUpdate = GeneralUpdate) ∧
  AutoscalingUpdate ≠ SizeUpdate.
Proof.
  apply (IsUpToDate_flag_and_kind (Some pools.desiredAutoscaled) pools.observedAutoscaled).
  vm_compute. reflexivity.
Defined.

(** a nil entry in the observed accelerators stops late initialisation, and
    with it the classifier *)
Example LateInitializeSpec_nil_entry :
  LateInitializeSpec (Some v1beta1.emptyParameters) pools.observedWithNil = Panic ∧
  IsUpToDate (Some pools.desiredAutoscaled) pools.observedWithNil = Panic.
Proof. split; reflexivity. Qed.

(** once autoscaling agrees, the remaining fields decide: here the version *)
Example IsUpToDate_next_difference :
  let autoscaling :=
    Some {| v1beta1.Autoprovisioned := Some true; v1beta1.Enabled := Some true;
            v1beta1.MaxNodeCount := Some 5; v1beta1.MinNodeCount := Some 1 |} in
  let desired :=
    {| v1beta1.Cluster := None; v1beta1.Autoscaling := autoscaling;
       v1beta1.Config := None; v1beta1.InitialNodeCount := Some 3;
       v1beta1.Locations := Some ["us-central1-a"]; v1beta1.Management := None;
       v1beta1.np_MaxPodsConstraint := None; v1beta1.Version := Some "1.14" |} in
  let observed :=
    set_Autoscaling
      (Some {| container.Autoprovisioned := true; container.Enabled := true;
               container.MaxNodeCount := 5; container.MinNodeCount := 1 |})
      pools.observedAutoscaled in
  IsUpToDate (Some desired) observed = Ok (false, GeneralUpdate).
Proof. vm_compute. reflexivity. Qed.

(** ** Late initialisation is additive *)

(** C3, as the code has it.  LateInitializeSpec returns on every provider
    object without nil entries, and whenever it returns the spec it leaves is
    [additive].  A scalar pointer that was set keeps its value, at the top
    level and inside a present Autoscaling, Config, Management or
    ShieldedInstanceConfig; one that was nil takes the observed value, and
    stays nil only where that value is the zero value of its type.  A
    non-empty list or map is kept; an empty one is replaced by the observed
    collection as a whole, and stays as it was only where that one is empty
    too.  A present SandboxConfig, WorkloadMetadataConfig or
    MaxPodsConstraint is kept as it is, an absent one becomes the observed
    one.  A present Autoscaling, Config, Management or
    ShieldedInstanceConfig stays present and is filled field by field in this
    way, so that the nested object as a whole may change; an absent one is
    created when the provider has one. *)
Theorem LateInitializeSpec_additive_only
    (spec : v1beta1.NodePoolParameters) (in_ : container.NodePool) :
  (noNilEntries in_ → ∃ after, LateInitializeSpec (Some spec) in_ = Ok after) ∧
  (∀ after, LateInitializeSpec (Some spec) in_ = Ok after → additive spec in_ after).
Proof.
  split.
  - apply LateInitializeSpec_returns.
  - apply LateInitializeSpec_additive.
Qed.

Lemma LateInitializeSpec_additive_only_witness :
  (∃ after, LateInitializeSpec (Some pools.desiredEnabledOnly) pools.observedAutoscaled
            = Ok after) ∧
  ∃ after, additive pools.desiredEnabledOnly pools.observedAutoscaled after.
Proof.
  split.
  - apply (proj1 (LateInitializeSpec_additive_only
                    pools.desiredEnabledOnly pools.observedAutoscaled)).
    exact noNilEntries_observedAutoscaled.
  - eexists.
    apply (proj2 (LateInitializeSpec_additive_only
                    pools.desiredEnabledOnly pools.observedAutoscaled)).
    vm_compute. reflexivity.
Defined.

(** C3, as stated, fails on a present nested object: the autoscaling object
    the caller set with only [Enabled] comes back with the observed node
    counts filled in, hence different from the value it was set to. *)
Lemma LateInitializeSpec_changes_present_object :
  ∃ after,
    LateInitializeSpec (Some pools.desiredEnabledOnly) pools.observedAutoscaled = Ok after ∧
    is_Some (v1beta1.Autoscaling pools.desiredEnabledOnly) ∧
    v1beta1.Autoscaling after ≠ v1beta1.Autoscaling pools.desiredEnabledOnly.
Proof.
  eexists. split; [vm_compute; reflexivity|].
  split; [by eexists | discriminate].
Qed.

(** ** Generated pools and the round trip *)

Lemma GenerateNodePool_plain (d : v1beta1.NodePoolParameters) (name : string) :
  v1beta1.Autoscaling d = None → v1beta1.Config d = None →
  v1beta1.Management d = None → v1beta1.np_MaxPodsConstraint d = None →
  GenerateNodePool d name = Ok (Some (newNodePool d name)).
Proof. unfold GenerateNodePool. by intros -> -> -> ->. Qed.

(** For a desired spec without autoscaling, config, management and max-pods
    constraint, GenerateNodePool sets none of the four on the pool it builds,
    and IsUpToDate of the spec against that pool finds no difference in the
    autoscaling or the management category: it returns (true, NoUpdate) or
    (false, GeneralUpdate). *)
Lemma round_trip_without_optionals (d : v1beta1.NodePoolParameters) (name : string) :
  v1beta1.Autoscaling d = None → v1beta1.Config d = None →
  v1beta1.Management d = None → v1beta1.np_MaxPodsConstraint d = None →
  ∃ pool b k,
    GenerateNodePool d name = Ok (Some pool) ∧
    container.Autoscaling pool = None ∧ container.Config pool = None ∧
    container.Management pool = None ∧ container.np_MaxPodsConstraint pool = None ∧
    IsUpToDate (Some d) pool = Ok (b, k) ∧
    ((b, k) = (true, NoUpdate) ∨ (b, k) = (false, GeneralUpdate)).
Proof.
  intros Ha Hc Hm Hp.
  rewrite (GenerateNodePool_plain d name Ha Hc Hm Hp).
  assert (∃ cur, LateInitializeSpec (Some v1beta1.emptyParameters) (newNodePool d name)
                 = Ok cur ∧
                 v1beta1.Autoscaling cur = None ∧ v1beta1.Management cur = None)
    as (cur & Hcur & Hca & Hcm).
  { eexists. split; [reflexivity|]. by split. }
  pose proof (IsUpToDate_first_difference_wins_aux d (newNodePool d name) cur Hcur)
    as (_ & _ & Hgeneral & Hnone).
  destruct (decide (d = cur)) as [Heq | Hne].
  - exists (newNodePool d name), true, NoUpdate.
    split; [done|]. do 4 (split; [done|]). split; [by apply Hnone | by left].
  - exists (newNodePool d name), false, GeneralUpdate.
    split; [done|]. do 4 (split; [done|]).
    split; [apply Hgeneral; congruence | by right].
Qed.

(** C4.  The round trip the claim describes, run on a spec without any
    optional sub-structure that names its cluster: the generated pool has no
    optional field, and IsUpToDate, given the spec and the pool generated
    from it, reports a general update.  The pool carries no cluster, so the
    reconstructed spec has none, and the comparison of the whole specs
    fails. *)
Lemma round_trip_reports_general_update :
  v1beta1.Autoscaling pools.desiredPlain = None ∧
  v1beta1.Config pools.desiredPlain = None ∧
  v1beta1.Management pools.desiredPlain = None ∧
  v1beta1.np_MaxPodsConstraint pools.desiredPlain = None ∧
  ∃ pool,
    GenerateNodePool pools.desiredPlain "pool-1" = Ok (Some pool) ∧
    IsUpToDate (Some pools.desiredPlain) pool = Ok (false, GeneralUpdate).
Proof.
  do 4 (split; [reflexivity|]). eexists. split; [reflexivity|]. vm_compute. reflexivity.
Qed.

(** nil entries of the desired accelerators and taints are skipped; a list
    of nil entries only is generated as the nil slice *)
Example GenerateConfig_skips_nil :
  ∃ pool cfg,
    GenerateConfig (Some pools.configWithNil) (Some (newNodePool v1beta1.emptyParameters "p"))
    = Ok (Some pool) ∧
    container.Config pool = Some cfg ∧
    container.Accelerators cfg
    = Some [Some {| container.AcceleratorCount := 1;
                    container.AcceleratorType := "nvidia-tesla-k80" |};
            Some {| container.AcceleratorCount := 2;
                    container.AcceleratorType := "nvidia-tesla-p100" |}] ∧
    container.Taints cfg = None.
Proof. eexists _, _. split; [reflexivity|]. by repeat split. Qed.

(** ** The adapter functions return *)

(** C9, as the code has it.  GenerateNodePool and GenerateObservation return
    on every input, nil entries of the accelerator, taint and condition lists
    included; GenerateConfig returns whenever the pool pointer is not nil or
    the config is nil; GenerateNodePoolUpdate returns on every non-nil
    parameters pointer. *)
Theorem Generate_functions_return :
  (∀ in_ name, ∃ pool, GenerateNodePool in_ name = Ok (Some pool)) ∧
  (∀ in_ pool, ∃ pool', GenerateConfig in_ (Some pool) = Ok (Some pool')) ∧
  (∀ pool, GenerateConfig None pool = Ok pool) ∧
  (∀ in_, ∃ o, GenerateObservation in_ = Ok o) ∧
  (∀ in_, ∃ req, GenerateNodePoolUpdate (Some in_) = Ok (Some req)).
Proof.
  repeat split.
  - intros in_ name. unfold GenerateNodePool.
    destruct (v1beta1.Autoscaling in_), (v1beta1.Config in_),
      (v1beta1.Management in_), (v1beta1.np_MaxPodsConstraint in_);
      run; by eexists.
  - intros [i|] pool; run; by eexists.
  - intros in_. by eexists.
  - intros in_. unfold GenerateNodePoolUpdate. run.
    destruct (v1beta1.Config in_); by eexists.
Qed.

(** C9, as stated, fails on nil pointers: GenerateNodePoolUpdate reads
    through its argument at once, and GenerateConfig writes a config through
    the pool pointer without checking it. *)
Lemma Generate_functions_panic_on_nil :
  GenerateNodePoolUpdate None = Panic ∧
  GenerateConfig (Some v1beta1.emptyConfig) None = Panic.
Proof. split; reflexivity. Qed.

End nodepool_props.

(** * Properties of the GKECluster external client *)

Module gkecluster_props.
Import gkecluster.

Section client.
Context {adapter : Adapter}.

Implicit Types (e : external) (cr : GKECluster) (o : OtherManaged).

(** ** The status switch *)

Lemma ClusterState_distinct :
  ClusterStateProvisioning ≠ ClusterStateRunning ∧
  (ClusterStateRunning ∉ [ClusterStateUnspecified; ClusterStateDegraded;
                           ClusterStateError; ClusterStateReconciling]) ∧
  (ClusterStateProvisioning ∉ [ClusterStateUnspecified; ClusterStateDegraded;
                                ClusterStateError; ClusterStateReconciling]).
Proof.
  pose proof ClusterState_NoDup as Hnd.
  apply NoDup_cons in Hnd as [Hr Hnd]. apply NoDup_cons in Hnd as [Hp _].
  apply not_elem_of_cons in Hr as [Hrp Hr]. auto.
Qed.

Lemma setStatusCondition_cases cr :
  let st := obs_Status (AtProvider cr) in
  (st = ClusterStateRunning →
     setStatusCondition cr = setBindable (setConditions Available cr)) ∧
  (st = ClusterStateProvisioning →
     setStatusCondition cr = setConditions Creating cr) ∧
  (st ∈ [ClusterStateUnspecified; ClusterStateDegraded;
         ClusterStateError; ClusterStateReconciling] →
     setStatusCondition cr = setConditions Unavailable cr).
Proof.
  destruct ClusterState_distinct as (Hpr & Hr & Hp).
  unfold setStatusCondition. simpl. repeat split.
  - intros ->. by rewrite decide_True.
  - intros ->. rewrite decide_False by done. by rewrite decide_True.
  - intros Hin. rewrite decide_False by (intros Heq; by rewrite Heq in Hin).
    rewrite decide_False by (intros Heq; by rewrite Heq in Hin).
    by rewrite decide_True.
Qed.

(** ** Observe *)

Lemma Observe_found_unfold e cr existing :
  Clusters_Get (cluster e) (ExternalName cr) = inl existing →
  let cr1 := lateInitialized cr existing in
  let cr2 := kube_Updated (kube e) cr1 in
  Observe e (IsGKECluster cr) =
    if bool_decide (ForProvider cr = ForProvider cr1)
    then {| value := {| ResourceExists := true;
                        ResourceUpToDate := (gke_IsUpToDate (ForProvider cr1) existing).1;
                        obs_ConnectionDetails := connectionDetails existing |};
            failure := None;
            managed := IsGKECluster (setStatusCondition cr1);
            calls := [ClustersGet (ExternalName cr)] |}
    else match kube_Update (kube e) cr1 with
         | Some err =>
             {| value := noObservation;
                failure := Some (withMessage err errManagedUpdateFailed);
                managed := IsGKECluster cr1;
                calls := [ClustersGet (ExternalName cr); KubeUpdate cr1] |}
         | None =>
             {| value := {| ResourceExists := true;
                            ResourceUpToDate := (gke_IsUpToDate (ForProvider cr2) existing).1;
                            obs_ConnectionDetails := connectionDetails existing |};
                failure := None;
                managed := IsGKECluster (setStatusCondition cr2);
                calls := [ClustersGet (ExternalName cr); KubeUpdate cr1] |}
         end.
Proof.
  intros Hget. unfold Observe. rewrite Hget. simpl.
  assert (∀ c : GKECluster, ForProvider (setStatusCondition c) = ForProvider c) as Hfp.
  { intros c. unfold setStatusCondition. by repeat case_decide. }
  rewrite !Hfp. fold (lateInitialized cr existing).
  case_bool_decide.
  - by destruct (gke_IsUpToDate _ _).
  - destruct (kube_Update _ _); [done|]. by destruct (gke_IsUpToDate _ _).
Qed.

(** when Observe returns no error on a found object, it has reached the
    switch with [atSwitch] *)
Lemma Observe_found_ok e cr existing :
  Clusters_Get (cluster e) (ExternalName cr) = inl existing →
  failure (Observe e (IsGKECluster cr)) = None →
  managed (Observe e (IsGKECluster cr))
    = IsGKECluster (setStatusCondition (atSwitch e cr existing)) ∧
  value (Observe e (IsGKECluster cr))
    = {| ResourceExists := true;
         ResourceUpToDate :=
           (gke_IsUpToDate (ForProvider (atSwitch e cr existing)) existing).1;
         obs_ConnectionDetails := connectionDetails existing |}.
Proof.
  intros Hget. rewrite (Observe_found_unfold e cr existing Hget). unfold atSwitch. simpl.
  case_bool_decide; [done|]. by destruct (kube_Update _ _).
Qed.

(** C7, as the code has it.  For every found provider object on which
    Observe returns no error, the observation has ResourceExists = true and
    the status that Status.AtProvider holds when the switch is reached
    decides one condition: RUNNING sets Available and marks the resource
    bindable; PROVISIONING sets Creating; UNSPECIFIED, DEGRADED, ERROR and
    RECONCILING set Unavailable; in the last two cases the binding phase is
    left alone.  The resource at the switch is [atSwitch]: it carries the
    status of the provider object, and the conditions and phase the resource
    came with, whenever late initialisation left the spec unchanged or the
    store hands the resource back as it was sent; after a store update it
    carries what the store has written back. *)
Theorem Observe_maps_status e cr (existing : Cluster) :
  Clusters_Get (cluster e) (ExternalName cr) = inl existing →
  failure (Observe e (IsGKECluster cr)) = None →
  let reached := atSwitch e cr existing in
  let st := obs_Status (AtProvider reached) in
  ∃ cr', managed (Observe e (IsGKECluster cr)) = IsGKECluster cr' ∧
    ResourceExists (value (Observe e (IsGKECluster cr))) = true ∧
    AtProvider cr' = AtProvider reached ∧
    (ForProvider cr = ForProvider (lateInitialized cr existing) ∨
     kube_Updated (kube e) (lateInitialized cr existing) = lateInitialized cr existing →
       AtProvider reached = gke_GenerateObservation existing ∧
       Conditions reached = Conditions cr ∧ Phase reached = Phase cr) ∧
    (st = ClusterStateRunning →
       Conditions cr' = SetConditions (Conditions reached) [Available] ∧
       Phase cr' = SetBindable (Phase reached)) ∧
    (st = ClusterStateProvisioning →
       Conditions cr' = SetConditions (Conditions reached) [Creating] ∧
       Phase cr' = Phase reached) ∧
    (st ∈ [ClusterStateUnspecified; ClusterStateDegraded;
           ClusterStateError; ClusterStateReconciling] →
       Conditions cr' = SetConditions (Conditions reached) [Unavailable] ∧
       Phase cr' = Phase reached).
Proof.
  intros Hget Hok reached st.
  destruct (Observe_found_ok e cr existing Hget Hok) as [Hm Hv].
  rewrite Hm, Hv. fold reached.
  destruct (setStatusCondition_cases reached) as (Hr & Hp & Hu).
  exists (setStatusCondition reached).
  split; [done|]. split; [done|].
  split; [unfold setStatusCondition; by repeat case_decide|].
  split.
  { subst reached. unfold atSwitch. intros [Hsame | Hid].
    - by rewrite bool_decide_eq_true_2.
    - case_bool_decide; [done|]. by rewrite Hid. }
  split; [|split]; intros Hst;
    [rewrite (Hr Hst) | rewrite (Hp Hst) | rewrite (Hu Hst)]; done.
Qed.

(** C5, as the code has it.  Whenever Observe returns an error, the
    conditions and the binding phase of the resource are as before the call.
    If the error is that of the remote Get the whole resource is untouched,
    Status.AtProvider included.  Otherwise the Get had found the object and
    the store refused the late-initialised spec: Status.AtProvider then
    already holds the observation of the fetched object, and the spec is the
    late-initialised one. *)
Theorem Observe_error_state e cr (err : error) :
  failure (Observe e (IsGKECluster cr)) = Some err →
  ∃ cr', managed (Observe e (IsGKECluster cr)) = IsGKECluster cr' ∧
    Conditions cr' = Conditions cr ∧ Phase cr' = Phase cr ∧
    ((∃ err0, Clusters_Get (cluster e) (ExternalName cr) = inr err0 ∧ cr' = cr) ∨
     (∃ existing err1,
        Clusters_Get (cluster e) (ExternalName cr) = inl existing ∧
        cr' = lateInitialized cr existing ∧
        AtProvider cr' = gke_GenerateObservation existing ∧
        ForProvider cr' ≠ ForProvider cr ∧
        kube_Update (kube e) cr' = Some err1 ∧
        err = withMessage err1 errManagedUpdateFailed)).
Proof.
  destruct (Clusters_Get (cluster e) (ExternalName cr)) as [existing|err0] eqn:Hget.
  - rewrite (Observe_found_unfold e cr existing Hget). simpl.
    case_bool_decide as Hsame; [discriminate|].
    destruct (kube_Update _ _) as [err1|] eqn:Hupd; [|discriminate].
    simpl. intros [= <-]. exists (lateInitialized cr existing).
    do 3 (split; [done|]). right. exists existing, err1.
    do 3 (split; [done|]). split; [|done].
    intros Heq. apply Hsame. symmetry. exact Heq.
  - unfold Observe. rewrite Hget. simpl. intros _.
    exists cr. do 3 (split; [done|]). left. by exists err0.
Qed.

(** ** Update *)

(** C2, as the code has it.  Update begins with a remote Get of its own, and
    every update call it issues is the one IsUpToDate selects against the
    object that Get has just returned: the calls of Update are that Get
    alone when it fails or the object is up to date, and the Get followed by
    the selected update call otherwise. *)
Theorem Update_fetches_again e cr :
  let name := ExternalName cr in
  let r := Update e (IsGKECluster cr) in
  (∃ rest, calls r = ClustersGet name :: rest) ∧
  (∀ fn, ClustersUpdate fn ∈ calls r →
     ∃ existing,
       Clusters_Get (cluster e) name = inl existing ∧
       gke_IsUpToDate (ForProvider cr) existing = (false, fn) ∧
       calls r = [ClustersGet name; ClustersUpdate fn] ∧
       failure r = errors_Wrap (runUpdateFn (cluster e) fn) errUpdateCluster) ∧
  (∀ existing fn,
     Clusters_Get (cluster e) name = inl existing →
     gke_IsUpToDate (ForProvider cr) existing = (false, fn) →
     calls r = [ClustersGet name; ClustersUpdate fn]) ∧
  managed r = IsGKECluster cr.
Proof.
  intros name r. subst r name. unfold Update.
  destruct (Clusters_Get (cluster e) (ExternalName cr)) as [existing|err] eqn:Hget; simpl.
  - destruct (gke_IsUpToDate (ForProvider cr) existing) as [[|] fn0] eqn:Hup; simpl.
    + split; [by eexists|]. split; [|split; [|done]].
      * intros fn Hin. apply list_elem_of_singleton in Hin. discriminate Hin.
      * intros ex fn [= <-]. rewrite Hup. discriminate.
    + split; [by eexists|]. split; [|split; [|done]].
      * intros fn Hin. apply elem_of_cons in Hin as [Hin|Hin]; [discriminate Hin|].
        apply list_elem_of_singleton in Hin. injection Hin as ->.
        by exists existing.
      * intros ex fn [= <-]. rewrite Hup. by intros [= <-].
  - split; [by eexists|]. split; [|split; [|done]].
    + intros fn Hin. apply list_elem_of_singleton in Hin. discriminate Hin.
    + intros ex fn. discriminate.
Qed.

(** ** Delete *)

(** C6.  If the provider's delete call returns an error that is NotFound,
    Delete returns nil; any other error of the delete call is returned
    wrapped with the message of the delete operation. *)
Theorem Delete_not_found_is_success e cr (err : error) :
  Clusters_Delete (cluster e) (ExternalName cr) = Some err →
  (gcp_IsErrorNotFound (Some err) = true →
     failure (Delete e (IsGKECluster cr)) = None) ∧
  (gcp_IsErrorNotFound (Some err) = false →
     failure (Delete e (IsGKECluster cr)) = Some (withMessage err errDeleteCluster)).
Proof.
  intros Hdel. unfold Delete. simpl. rewrite Hdel.
  split; intros ->; done.
Qed.

(** ** A resource of another kind *)

(** C8.  On an object that is not a GKECluster, Connect, Observe, Create,
    Update and Delete each return the error "managed resource is not a
    GKECluster", make no call, and leave the object as it is. *)
Theorem not_a_cluster (c : gkeConnecter) e o :
  let mg := NotGKECluster o in
  let mismatch := Some (errors_New errNotCluster) in
  (∃ r, Connect c mg = Ok r ∧
        value r = None ∧ failure r = mismatch ∧ calls r = [] ∧ managed r = mg) ∧
  (failure (Observe e mg) = mismatch ∧ value (Observe e mg) = noObservation ∧
   calls (Observe e mg) = [] ∧ managed (Observe e mg) = mg) ∧
  (failure (Create e mg) = mismatch ∧ calls (Create e mg) = [] ∧
   managed (Create e mg) = mg) ∧
  (failure (Update e mg) = mismatch ∧ calls (Update e mg) = [] ∧
   managed (Update e mg) = mg) ∧
  (failure (Delete e mg) = mismatch ∧ calls (Delete e mg) = [] ∧
   managed (Delete e mg) = mg).
Proof.
  intros mg mismatch. split; [by eexists|]. by repeat split.
Qed.

End client.

(** ** Runs on the sample adapter *)

Import sample.
#[local] Existing Instance adapter.

Lemma Observe_maps_status_witness :
  ∃ cr', managed (Observe (client kubeUp gkeUp) (IsGKECluster cr0)) = IsGKECluster cr' ∧
    ResourceExists (value (Observe (client kubeUp gkeUp) (IsGKECluster cr0))) = true ∧
    AtProvider cr' = "RUNNING" ∧
    Conditions cr' = Some Available ∧ Phase cr' = PhaseUnbound.
Proof.
  destruct (Observe_maps_status (adapter := sample.adapter) (client kubeUp gkeUp) cr0 running
              eq_refl eq_refl) as (cr' & Hm & Hre & Hat & _ & Hrun & _).
  destruct (Hrun eq_refl) as [Hc Hp].
  exists cr'. split; [exact Hm|]. split; [exact Hre|]. split; [exact Hat|].
  split; [exact Hc | exact Hp].
Defined.

(** C7, as stated, fails when the store refuses the late-initialised spec:
    the provider object is found and RUNNING, yet Observe returns an error
    with the zero observation and sets no condition. *)
Lemma Observe_found_without_condition :
  let r := Observe (client kubeReadOnly gkeUp) (IsGKECluster cr0) in
  Clusters_Get gkeUp (ExternalName cr0) = inl running ∧
  c_Status running = "RUNNING" ∧
  ResourceExists (value r) = false ∧
  ∃ cr', managed r = IsGKECluster cr' ∧
         Conditions cr' = Some Creating ∧ Phase cr' = PhaseUnset.
Proof. simpl. repeat split. by eexists. Qed.

Lemma Observe_error_state_witness :
  ∃ cr', managed (Observe (client kubeReadOnly gkeUp) (IsGKECluster cr0)) = IsGKECluster cr' ∧
    Conditions cr' = Some Creating ∧ Phase cr' = PhaseUnset ∧
    ((∃ err0, Clusters_Get gkeUp "gke-demo" = inr err0 ∧ cr' = cr0) ∨
     (∃ existing err1,
        Clusters_Get gkeUp "gke-demo" = inl existing ∧
        cr' = lateInitialized cr0 existing ∧
        AtProvider cr' = c_Status existing ∧
        ForProvider cr' ≠ None ∧
        kube_Update kubeReadOnly cr' = Some err1 ∧
        withMessage storeDown errManagedUpdateFailed
          = withMessage err1 errManagedUpdateFailed)).
Proof.
  apply (Observe_error_state (adapter := sample.adapter) (client kubeReadOnly gkeUp) cr0
           (withMessage storeDown errManagedUpdateFailed)).
  reflexivity.
Defined.

(** C5, as stated, fails on the same run: Observe returns the error of the
    store, and Status.AtProvider, PROVISIONING before the call, now reads
    RUNNING. *)
Lemma Observe_error_overwrites_AtProvider :
  let r := Observe (client kubeReadOnly gkeUp) (IsGKECluster cr0) in
  failure r = Some (withMessage storeDown errManagedUpdateFailed) ∧
  AtProvider cr0 = "PROVISIONING" ∧
  ∃ cr', managed r = IsGKECluster cr' ∧ AtProvider cr' = "RUNNING".
Proof. simpl. repeat split. by eexists. Qed.

Lemma Update_fetches_again_witness :
  ∃ existing,
    Clusters_Get gkeUp "gke-demo" = inl existing ∧
    gke_IsUpToDate (Some "1.15") existing = (false, "1.15") ∧
    calls (Update (client kubeUp gkeUp) (IsGKECluster cr1))
      = [ClustersGet "gke-demo"; ClustersUpdate "1.15"] ∧
    failure (Update (client kubeUp gkeUp) (IsGKECluster cr1))
      = errors_Wrap (runUpdateFn gkeUp "1.15") errUpdateCluster.
Proof.
  apply (proj1 (proj2 (Update_fetches_again (adapter := sample.adapter) (client kubeUp gkeUp) cr1))).
  simpl. apply elem_of_cons. right. apply elem_of_cons. left. reflexivity.
Defined.

(** C2, as stated, fails: on a cluster that is not up to date, Update issues
    a remote Get before the update call. *)
Lemma Update_gets_before_updating :
  calls (Update (client kubeUp gkeUp) (IsGKECluster cr1))
  = [ClustersGet "gke-demo"; ClustersUpdate "1.15"].
Proof. reflexivity. Qed.

Example Observe_provisioning :
  let r := Observe (client kubeUp
                      {| Clusters_Get := fun _ =>
                           inl {| c_Name := "gke-demo"; c_Status := "PROVISIONING";
                                  c_MasterVersion := "1.15" |};
                         Clusters_Create := fun _ _ => None;
                         Clusters_Delete := fun _ => None;
                         runUpdateFn := fun _ => None |})
                   (IsGKECluster cr1) in
  failure r = None ∧ ResourceExists (value r) = true ∧
  ResourceUpToDate (value r) = true ∧ calls r = [ClustersGet "gke-demo"] ∧
  ∃ cr', managed r = IsGKECluster cr' ∧ Conditions cr' = Some Creating.
Proof. simpl. repeat split. by eexists. Qed.

Example Observe_not_found :
  let r := Observe (client kubeUp gkeGone) (IsGKECluster cr0) in
  failure r = None ∧ ResourceExists (value r) = false ∧ managed r = IsGKECluster cr0.
Proof. by simpl. Qed.

Example Connect_sample :
  ∃ r ext, Connect connecter0 (IsGKECluster cr0) = Ok r ∧ value r = Some ext ∧
    failure r = None ∧ projectID ext = "demo-project" ∧
    calls r = [KubeGetProvider "gcp-provider";
               KubeGetSecret "crossplane-system" "gcp-creds";
               NewService (Some "{}")].
Proof. eexists _, _. split; [vm_compute; reflexivity|]. by repeat split. Qed.

Lemma Delete_not_found_is_success_witness :
  failure (Delete (client kubeUp gkeGone) (IsGKECluster cr0)) = None.
Proof.
  apply (proj1 (Delete_not_found_is_success (adapter := sample.adapter)
                  (client kubeUp gkeGone) cr0 notFound eq_refl)).
  reflexivity.
Defined.

End gkecluster_props.

(** * Further properties of package nodepool *)

Module nodepool_more.
Import nodepool lateinit generated nodepool_props.

(** ** The generating loops *)

Lemma fold_append_nonNil {A B} (f : A → B) (step : slice (option B) → option A → slice (option B)) :
  (∀ out a, step out (Some a) = append out (Some (f a))) →
  (∀ out, step out None = out) →
  ∀ l out,
    fold_left step l out =
      match nonNil l with
      | [] => out
      | _ => Some (elems out ++ ((λ a, Some (f a)) <$> nonNil l))
      end.
Proof.
  intros Hsome Hnone. induction l as [|[a|] l IH]; intros out; simpl.
  - done.
  - rewrite Hsome, IH. unfold nonNil. simpl.
    destruct (omap id l); simpl; [done|]. by rewrite <- app_assoc.
  - rewrite Hnone, IH. done.
Qed.

Lemma fold_appendAccelerator l :
  fold_left appendAccelerator l None = converted fromAccelerator l.
Proof.
  unfold converted. rewrite (fold_append_nonNil fromAccelerator); [|done..].
  by destruct (nonNil l).
Qed.

Lemma fold_appendTaint l :
  fold_left appendTaint l None = converted fromTaint l.
Proof.
  unfold converted. rewrite (fold_append_nonNil fromTaint); [|done..].
  by destruct (nonNil l).
Qed.

Lemma fold_appendCondition l :
  fold_left appendCondition l None = converted fromCondition l.
Proof.
  unfold converted. rewrite (fold_append_nonNil fromCondition); [|done..].
  by destruct (nonNil l).
Qed.

Lemma converted_elems {A B} (f : A → B) l :
  elems (converted f l) = (λ a, Some (f a)) <$> nonNil l.
Proof. unfold converted. by destruct (nonNil l). Qed.

Lemma converted_is_Some {A B} (f : A → B) l :
  Forall is_Some (elems (converted f l)).
Proof.
  rewrite converted_elems. apply Forall_fmap, Forall_forall. intros a _.
  unfold compose. by eexists.
Qed.

Lemma nonNil_cons_Some {A} (a : A) l : nonNil (Some a :: l) = a :: nonNil l.
Proof. reflexivity. Qed.

Lemma nonNil_cons_None {A} (l : list (option A)) : nonNil (None :: l) = nonNil l.
Proof. reflexivity. Qed.

Lemma nonNil_length {A} (l : list (option A)) : (length (nonNil l) ≤ length l)%nat.
Proof.
  induction l as [|[a|] l IH]; [done| |].
  - rewrite nonNil_cons_Some. simpl. lia.
  - rewrite nonNil_cons_None. simpl. lia.
Qed.

Lemma nonNil_all {A} (l : list (option A)) :
  Forall is_Some l → Some <$> nonNil l = l.
Proof.
  induction 1 as [|a l [a' ->] _ IH]; [done|].
  rewrite nonNil_cons_Some, fmap_cons. by rewrite IH.
Qed.

(** ** What GenerateNodePool builds *)

(** X1.  GenerateNodePool returns a pool named [name] that carries the
    initial node count, locations and version of the spec; each of
    Autoscaling, Config, Management and MaxPodsConstraint is set on the pool
    exactly when the spec has it; the fields only the provider fills
    (conditions, instance groups, CIDR size, self link, status) are left at
    their zero values. *)
Theorem GenerateNodePool_shape (in_ : v1beta1.NodePoolParameters) (name : string) :
  ∃ pool, GenerateNodePool in_ name = Ok (Some pool) ∧
    container.Name pool = name ∧
    container.InitialNodeCount pool = gcp.Int64Value (v1beta1.InitialNodeCount in_) ∧
    container.Locations pool = v1beta1.Locations in_ ∧
    container.Version pool = gcp.StringValue (v1beta1.Version in_) ∧
    (is_Some (container.Autoscaling pool) ↔ is_Some (v1beta1.Autoscaling in_)) ∧
    (is_Some (container.Config pool) ↔ is_Some (v1beta1.Config in_)) ∧
    (is_Some (container.Management pool) ↔ is_Some (v1beta1.Management in_)) ∧
    (is_Some (container.np_MaxPodsConstraint pool)
       ↔ is_Some (v1beta1.np_MaxPodsConstraint in_)) ∧
    container.Conditions pool = None ∧ container.InstanceGroupUrls pool = None ∧
    container.PodIpv4CidrSize pool = 0 ∧ container.SelfLink pool = "" ∧
    container.Status pool = "" ∧ container.StatusMessage pool = "".
Proof.
  unfold GenerateNodePool.
  destruct (v1beta1.Autoscaling in_), (v1beta1.Config in_),
    (v1beta1.Management in_), (v1beta1.np_MaxPodsConstraint in_);
    run; eexists; (split; [done|]); simpl;
    repeat (split; [first [done | by split; intros [? ?]; eexists
                           | by split; intros [? ?]] |]); done.
Qed.

(** X2.  GenerateConfig converts the non-nil entries of the accelerator and
    taint lists in their order and skips the nil ones, so the generated lists
    hold no nil entry; a list without a non-nil entry is generated as the nil
    slice.  Nothing but the Config field of the pool is written. *)
Theorem GenerateConfig_lists (cfg : v1beta1.NodeConfig) (pool : container.NodePool) :
  ∃ out, GenerateConfig (Some cfg) (Some pool) = Ok (Some (set_Config (Some out) pool)) ∧
    elems (container.Accelerators out)
      = (λ a, Some (fromAccelerator a)) <$> nonNil (elems (v1beta1.Accelerators cfg)) ∧
    (container.Accelerators out = None ↔ nonNil (elems (v1beta1.Accelerators cfg)) = []) ∧
    elems (container.Taints out)
      = (λ t, Some (fromTaint t)) <$> nonNil (elems (v1beta1.Taints cfg)) ∧
    (container.Taints out = None ↔ nonNil (elems (v1beta1.Taints cfg)) = []).
Proof.
  unfold GenerateConfig. run. eexists. split; [done|]. simpl.
  rewrite fold_appendAccelerator, fold_appendTaint, !converted_elems.
  split; [done|]. split; [|split; [done|]].
  - unfold converted. by destruct (nonNil _).
  - unfold converted. by destruct (nonNil _).
Qed.

Lemma GenerateNodePool_noNilEntries in_ name pool :
  GenerateNodePool in_ name = Ok (Some pool) → noNilEntries pool.
Proof.
  unfold GenerateNodePool.
  destruct (v1beta1.Autoscaling in_), (v1beta1.Config in_) as [cfg|],
    (v1beta1.Management in_), (v1beta1.np_MaxPodsConstraint in_);
    run; intros [= <-] c; simpl; intros [= <-]; simpl;
    rewrite ?fold_appendAccelerator, ?fold_appendTaint;
    split; apply converted_is_Some.
Qed.

(** X3.  Late initialisation and the classifier never panic on a pool that
    GenerateNodePool has built: whatever the spec the pool was generated
    from, its accelerator and taint lists hold no nil entry, and
    LateInitializeSpec and IsUpToDate return on it for every spec. *)
Theorem generated_pools_are_safe
    (d in_ : v1beta1.NodePoolParameters) (name : string) :
  ∃ pool after b k,
    GenerateNodePool d name = Ok (Some pool) ∧
    noNilEntries pool ∧
    LateInitializeSpec (Some in_) pool = Ok after ∧
    IsUpToDate (Some in_) pool = Ok (b, k).
Proof.
  destruct (GenerateNodePool_shape d name) as (pool & Hgen & _).
  pose proof (GenerateNodePool_noNilEntries _ _ _ Hgen) as Hwf.
  destruct (LateInitializeSpec_returns in_ pool Hwf) as [after Hafter].
  destruct (IsUpToDate_returns in_ pool Hwf) as (b & k & Hup).
  by exists pool, after, b, k.
Qed.

(** ** What GenerateObservation keeps *)

(** X4.  GenerateObservation copies the status, status message, self link,
    CIDR size and instance group URLs of the pool verbatim, converts the
    non-nil conditions in their order, and reports a management status
    exactly when the pool's management carries upgrade options, with their
    start time and description. *)
Theorem GenerateObservation_copies (in_ : container.NodePool) :
  ∃ o, GenerateObservation in_ = Ok o ∧
    v1beta1.Status o = container.Status in_ ∧
    v1beta1.StatusMessage o = container.StatusMessage in_ ∧
    v1beta1.SelfLink o = container.SelfLink in_ ∧
    v1beta1.PodIpv4CidrSize o = container.PodIpv4CidrSize in_ ∧
    v1beta1.InstanceGroupUrls o = container.InstanceGroupUrls in_ ∧
    elems (v1beta1.Conditions o)
      = (λ c, Some (fromCondition c)) <$> nonNil (elems (container.Conditions in_)) ∧
    (∀ m u, container.Management in_ = Some m → container.UpgradeOptions m = Some u →
       v1beta1.obs_Management o
       = Some {| v1beta1.UpgradeOptions :=
                   Some {| v1beta1.AutoUpgradeStartTime := container.AutoUpgradeStartTime u;
                           v1beta1.Description := container.Description u |} |}) ∧
    (v1beta1.obs_Management o = None ↔
       ∀ m, container.Management in_ = Some m → container.UpgradeOptions m = None).
Proof.
  eexists. split; [reflexivity|]. simpl.
  rewrite fold_appendCondition, converted_elems.
  do 6 (split; [done|]). split.
  - intros m u -> Hu. simpl. by rewrite Hu.
  - destruct (container.Management in_) as [m|]; simpl.
    + destruct (container.UpgradeOptions m) as [u|] eqn:Hu; simpl.
      * split; [discriminate|]. intros Hall. specialize (Hall m eq_refl). congruence.
      * split; [|done]. by intros _ m' [= <-].
    + split; [|done]. by intros _ m [=].
Qed.

(** ** What reaches the update request *)

(** X5.  The request GenerateNodePoolUpdate builds is decided by the
    locations, the version, the image type and the workload metadata config
    of the spec alone: two specs that agree on these yield the same request,
    whatever their disk size, labels, machine type, autoscaling or management
    are. *)
Theorem GenerateNodePoolUpdate_depends_on (a b : v1beta1.NodePoolParameters) :
  v1beta1.Locations a = v1beta1.Locations b →
  v1beta1.Version a = v1beta1.Version b →
  v1beta1.ImageType <$> v1beta1.Config a = v1beta1.ImageType <$> v1beta1.Config b →
  v1beta1.cfg_WorkloadMetadataConfig <$> v1beta1.Config a
    = v1beta1.cfg_WorkloadMetadataConfig <$> v1beta1.Config b →
  GenerateNodePoolUpdate (Some a) = GenerateNodePoolUpdate (Some b).
Proof.
  intros Hl Hv Hi Hw. unfold GenerateNodePoolUpdate. run. rewrite Hl, Hv.
  destruct (v1beta1.Config a) as [ca|], (v1beta1.Config b) as [cb|];
    simpl in *; try discriminate; [|done].
  injection Hi as ->. by injection Hw as ->.
Qed.

Lemma GenerateNodePoolUpdate_depends_on_witness :
  GenerateNodePoolUpdate (Some pools.desiredAutoscaled)
  = GenerateNodePoolUpdate (Some pools.desiredUnattached).
Proof.
  apply GenerateNodePoolUpdate_depends_on; reflexivity.
Defined.

(** ** Late initialisation settles *)

Lemma LateInitializeBool_idem b from :
  gcp.LateInitializeBool (gcp.LateInitializeBool b from) from = gcp.LateInitializeBool b from.
Proof. by destruct b. Qed.

Lemma LateInitializeInt64_idem i from :
  gcp.LateInitializeInt64 (gcp.LateInitializeInt64 i from) from
  = gcp.LateInitializeInt64 i from.
Proof. by destruct i. Qed.

Lemma LateInitializeString_idem s from :
  gcp.LateInitializeString (gcp.LateInitializeString s from) from
  = gcp.LateInitializeString s from.
Proof. by destruct s. Qed.

Lemma LateInitializeStringSlice_idem s from :
  gcp.LateInitializeStringSlice (gcp.LateInitializeStringSlice s from) from
  = gcp.LateInitializeStringSlice s from.
Proof. unfold gcp.LateInitializeStringSlice. by repeat case_decide. Qed.

Lemma LateInitializeStringMap_idem s from :
  gcp.LateInitializeStringMap (gcp.LateInitializeStringMap s from) from
  = gcp.LateInitializeStringMap s from.
Proof. unfold gcp.LateInitializeStringMap. by repeat case_decide. Qed.

Lemma lateInitAutoscaling_idem cur obs :
  lateInitAutoscaling (lateInitAutoscaling cur obs) obs = lateInitAutoscaling cur obs.
Proof.
  destruct obs as [o|]; simpl; [|done].
  by rewrite !LateInitializeBool_idem, !LateInitializeInt64_idem.
Qed.

Lemma lateInitManagement_idem cur obs :
  lateInitManagement (lateInitManagement cur obs) obs = lateInitManagement cur obs.
Proof.
  destruct obs as [o|]; simpl; [|done]. by rewrite !LateInitializeBool_idem.
Qed.

Lemma lateInitShielded_idem cur obs :
  lateInitShielded (lateInitShielded cur obs) obs = lateInitShielded cur obs.
Proof.
  destruct obs as [o|]; simpl; [|done]. by rewrite !LateInitializeBool_idem.
Qed.

Lemma lateInitSandbox_idem cur obs :
  lateInitSandbox (lateInitSandbox cur obs) obs = lateInitSandbox cur obs.
Proof. by destruct obs, cur. Qed.

Lemma lateInitWorkloadMetadata_idem cur obs :
  lateInitWorkloadMetadata (lateInitWorkloadMetadata cur obs) obs
  = lateInitWorkloadMetadata cur obs.
Proof. by destruct obs, cur. Qed.

Lemma lateInitMaxPods_idem cur obs :
  lateInitMaxPods (lateInitMaxPods cur obs) obs = lateInitMaxPods cur obs.
Proof. by destruct obs, cur. Qed.

Lemma lateInitAccelerators_idem cur obs r :
  lateInitAccelerators cur obs = Ok r → lateInitAccelerators r obs = Ok r.
Proof.
  unfold lateInitAccelerators. case_decide as Hc.
  - destruct (fillAccelerators 0 (elems obs) (make (len obs))) as [l|] eqn:Hfill;
      [|discriminate].
    run. intros [= <-]. by case_decide.
  - intros [= <-]. by rewrite decide_False.
Qed.

Lemma lateInitTaints_idem cur obs r :
  lateInitTaints cur obs = Ok r → lateInitTaints r obs = Ok r.
Proof.
  unfold lateInitTaints. case_decide as Hc.
  - destruct (fillTaints 0 (elems obs) (make (len obs))) as [l|] eqn:Hfill;
      [|discriminate].
    run. intros [= <-]. by case_decide.
  - intros [= <-]. by rewrite decide_False.
Qed.

Lemma lateInitConfig_idem cur obs r :
  lateInitConfig cur obs = Ok r → lateInitConfig r obs = Ok r.
Proof.
  destruct obs as [o|]; simpl; [|by intros [= <-]].
  destruct (lateInitAccelerators _ _) as [accelerators|] eqn:Hacc; [|discriminate].
  destruct (lateInitTaints _ _) as [taints|] eqn:Htaints; [|discriminate].
  run. intros [= <-]. simpl.
  rewrite (lateInitAccelerators_idem _ _ _ Hacc), (lateInitTaints_idem _ _ _ Htaints).
  run.
  by rewrite !LateInitializeInt64_idem, !LateInitializeString_idem,
    !LateInitializeStringMap_idem, !LateInitializeStringSlice_idem,
    !LateInitializeBool_idem, lateInitSandbox_idem, lateInitShielded_idem,
    lateInitWorkloadMetadata_idem.
Qed.

(** X6.  Late initialisation settles in one pass: the spec LateInitializeSpec
    leaves is a fixed point, a second call against the same provider object
    returns and changes nothing. *)
Theorem LateInitializeSpec_idempotent
    (spec after : v1beta1.NodePoolParameters) (in_ : container.NodePool) :
  LateInitializeSpec (Some spec) in_ = Ok after →
  LateInitializeSpec (Some after) in_ = Ok after.
Proof.
  unfold LateInitializeSpec. run.
  destruct (lateInitConfig _ _) as [c|] eqn:Hc; [|discriminate].
  run. intros [= <-]. simpl.
  rewrite (lateInitConfig_idem _ _ _ Hc). run.
  by rewrite lateInitAutoscaling_idem, lateInitManagement_idem, lateInitMaxPods_idem,
    LateInitializeInt64_idem, LateInitializeString_idem, LateInitializeStringSlice_idem.
Qed.

Lemma LateInitializeSpec_idempotent_witness :
  ∃ after,
    LateInitializeSpec (Some pools.desiredEnabledOnly) pools.observedAutoscaled = Ok after ∧
    LateInitializeSpec (Some after) pools.observedAutoscaled = Ok after.
Proof.
  eexists. split; [vm_compute; reflexivity|].
  apply (LateInitializeSpec_idempotent pools.desiredEnabledOnly).
  vm_compute. reflexivity.
Defined.

(** ** When a pool counts as up to date *)

(** X7.  IsUpToDate reports a spec up to date exactly when the spec equals,
    field for field, the one late initialisation of an empty spec rebuilds
    from the provider object.  Cluster is never rebuilt, so a spec that names
    its cluster is never reported up to date. *)
Theorem IsUpToDate_true_iff
    (in_ : v1beta1.NodePoolParameters) (currentState : container.NodePool) :
  (IsUpToDate (Some in_) currentState = Ok (true, NoUpdate)
   ↔ LateInitializeSpec (Some v1beta1.emptyParameters) currentState = Ok in_) ∧
  (∀ k, IsUpToDate (Some in_) currentState = Ok (true, k) → v1beta1.Cluster in_ = None).
Proof.
  assert (∀ k, IsUpToDate (Some in_) currentState = Ok (true, k) →
               LateInitializeSpec (Some v1beta1.emptyParameters) currentState = Ok in_)
    as Hback.
  { intros k. unfold IsUpToDate.
    destruct (LateInitializeSpec _ _) as [cur|] eqn:Hcur; [|discriminate]. run.
    destruct (negb (cmp_Equal (v1beta1.Autoscaling _) _)); [discriminate|].
    destruct (negb (cmp_Equal (v1beta1.Management _) _)); [discriminate|].
    destruct (cmp_Equal (Some in_) (Some cur)) eqn:Heq; simpl; [|discriminate].
    intros _. apply (proj1 (cmp_Equal_true (Some in_) (Some cur))) in Heq.
    by simplify_eq. }
  split; [split|].
  - apply Hback.
  - intros Hcur.
    by apply (IsUpToDate_first_difference_wins_aux in_ currentState in_ Hcur).
  - intros k Hup. apply Hback in Hup. revert Hup.
    unfold LateInitializeSpec. run.
    destruct (lateInitConfig _ _); [|discriminate]. run. by intros [= <-].
Qed.

(** ** What survives generation and reconstruction *)

Lemma toAccelerator_from a : toAccelerator (Some (fromAccelerator a)) = Some a.
Proof. by destruct a. Qed.

Lemma toTaint_from t : toTaint (Some (fromTaint t)) = Some t.
Proof. by destruct t. Qed.

Lemma lateInitAccelerators_fresh obs :
  Forall is_Some (elems obs) →
  ∃ r, lateInitAccelerators None obs = Ok r ∧ elems r = toAccelerator <$> elems obs.
Proof.
  intros Hsome. unfold lateInitAccelerators. case_decide as Hc.
  - rewrite fillAccelerators_Ok;
      [ | done | unfold make, len; rewrite length_replicate; lia ].
    unfold len. rewrite make_filled. run. by eexists.
  - eexists. split; [done|]. simpl.
    assert (len obs = 0%nat) as Hlen by (unfold len in *; simpl in *; lia).
    unfold len in Hlen. by rewrite (nil_length_inv _ Hlen).
Qed.

Lemma lateInitTaints_fresh obs :
  Forall is_Some (elems obs) →
  ∃ r, lateInitTaints None obs = Ok r ∧ elems r = toTaint <$> elems obs.
Proof.
  intros Hsome. unfold lateInitTaints. case_decide as Hc.
  - rewrite fillTaints_Ok;
      [ | done | unfold make, len; rewrite length_replicate; lia ].
    unfold len. rewrite make_filled. run. by eexists.
  - eexists. split; [done|]. simpl.
    assert (len obs = 0%nat) as Hlen by (unfold len in *; simpl in *; lia).
    unfold len in Hlen. by rewrite (nil_length_inv _ Hlen).
Qed.

Lemma back_and_forth {A B} (f : A → B) (g : option B → option A) (l : list (option A)) :
  (∀ a, g (Some (f a)) = Some a) →
  g <$> elems (converted f l) = Some <$> nonNil l.
Proof.
  intros Hgf. rewrite converted_elems, <- list_fmap_compose.
  apply list_fmap_ext. intros i a _. apply Hgf.
Qed.

(** X23.  Generating a pool from a spec and rebuilding a spec from that pool
    keeps the max-pods constraint as it was and, inside a present config, the
    sandbox config, the workload metadata config and the non-nil entries of
    the accelerator and taint lists, in order.  Nil entries are lost on the
    way: a desired accelerator list with a nil entry never equals the rebuilt
    one. *)
Theorem generate_then_rebuild (d : v1beta1.NodePoolParameters) (name : string) :
  ∃ pool cur,
    GenerateNodePool d name = Ok (Some pool) ∧
    LateInitializeSpec (Some v1beta1.emptyParameters) pool = Ok cur ∧
    v1beta1.np_MaxPodsConstraint cur = v1beta1.np_MaxPodsConstraint d ∧
    (v1beta1.Config d = None → v1beta1.Config cur = None) ∧
    (∀ c, v1beta1.Config d = Some c →
       ∃ c', v1beta1.Config cur = Some c' ∧
         v1beta1.cfg_SandboxConfig c' = v1beta1.cfg_SandboxConfig c ∧
         v1beta1.cfg_WorkloadMetadataConfig c' = v1beta1.cfg_WorkloadMetadataConfig c ∧
         elems (v1beta1.Accelerators c') = Some <$> nonNil (elems (v1beta1.Accelerators c)) ∧
         elems (v1beta1.Taints c') = Some <$> nonNil (elems (v1beta1.Taints c)) ∧
         (¬ Forall is_Some (elems (v1beta1.Accelerators c)) →
            v1beta1.Accelerators c' ≠ v1beta1.Accelerators c)).
Proof.
  assert (∃ pool,
            GenerateNodePool d name = Ok (Some pool) ∧
            container.np_MaxPodsConstraint pool
              = (λ m, {| container.MaxPodsPerNode := v1beta1.MaxPodsPerNode m |})
                  <$> v1beta1.np_MaxPodsConstraint d ∧
            (v1beta1.Config d = None → container.Config pool = None) ∧
            (∀ c, v1beta1.Config d = Some c →
               ∃ out, container.Config pool = Some out ∧
                 container.Accelerators out
                   = converted fromAccelerator (elems (v1beta1.Accelerators c)) ∧
                 container.Taints out = converted fromTaint (elems (v1beta1.Taints c)) ∧
                 container.cfg_SandboxConfig out
                   = generateSandbox (v1beta1.cfg_SandboxConfig c) ∧
                 container.cfg_WorkloadMetadataConfig out
                   = generateWorkloadMetadata (v1beta1.cfg_WorkloadMetadataConfig c)))
    as (pool & Hgen & Hmp & Hnone & Hsome).
  { unfold GenerateNodePool.
    destruct (v1beta1.Autoscaling d), (v1beta1.Config d) as [c|],
      (v1beta1.Management d), (v1beta1.np_MaxPodsConstraint d);
      run; eexists; (split; [reflexivity|]); simpl;
      (split; [reflexivity|]); (split; [done|]); intros c0 [= <-]; eexists;
      (split; [reflexivity|]); simpl;
      by rewrite fold_appendAccelerator, fold_appendTaint. }
  exists pool. rewrite Hgen. unfold LateInitializeSpec. run.
  destruct (v1beta1.Config d) as [c|] eqn:Hcfg.
  - destruct (Hsome c eq_refl) as (out & Hout & Hacc & Htaints & Hsb & Hwm).
    rewrite Hout. simpl.
    destruct (lateInitAccelerators_fresh (container.Accelerators out)) as (ra & -> & Hra).
    { rewrite Hacc. apply converted_is_Some. }
    destruct (lateInitTaints_fresh (container.Taints out)) as (rt & -> & Hrt).
    { rewrite Htaints. apply converted_is_Some. }
    run. eexists. split; [done|]. split; [reflexivity|]. simpl. split.
    { rewrite Hmp. by destruct (v1beta1.np_MaxPodsConstraint d) as [[]|]. }
    split; [done|]. intros c0 [= <-]. eexists. split; [done|]. simpl.
    assert (elems ra = Some <$> nonNil (elems (v1beta1.Accelerators c))) as Hra'.
    { rewrite Hra, Hacc. apply back_and_forth, toAccelerator_from. }
    split; [rewrite Hsb; by destruct (v1beta1.cfg_SandboxConfig c) as [[]|]|].
    split; [rewrite Hwm; by destruct (v1beta1.cfg_WorkloadMetadataConfig c) as [[]|]|].
    split; [done|].
    split; [rewrite Hrt, Htaints; apply back_and_forth, toTaint_from|].
    intros Hnil Heq. apply Hnil. rewrite <- Heq, Hra'.
    apply Forall_fmap, Forall_forall. intros a _. unfold compose. by eexists.
  - rewrite (Hnone eq_refl). run. eexists. split; [done|]. split; [reflexivity|].
    simpl. split.
    { rewrite Hmp. by destruct (v1beta1.np_MaxPodsConstraint d) as [[]|]. }
    split; [done | discriminate].
Qed.

(** ** Names *)

Lemma append_inj_r (a b c : string) :
  String.append a b = String.append a c → b = c.
Proof. induction a as [|x a IH]; simpl; [done|]. intros [= Heq]. auto. Qed.

(** X8.  Under one cluster, node pools with different names have different
    fully qualified names. *)
Theorem GetFullyQualifiedName_inj (p : v1beta1.NodePoolParameters) (n1 n2 : string) :
  n1 ≠ n2 → GetFullyQualifiedName p n1 ≠ GetFullyQualifiedName p n2.
Proof.
  unfold GetFullyQualifiedName, NodePoolNameFormat. intros Hne Heq.
  by do 2 apply append_inj_r in Heq.
Qed.

Lemma GetFullyQualifiedName_inj_witness :
  GetFullyQualifiedName pools.desiredPlain "pool-1"
  ≠ GetFullyQualifiedName pools.desiredPlain "pool-2".
Proof.
  apply (GetFullyQualifiedName_inj pools.desiredPlain "pool-1" "pool-2").
  discriminate.
Defined.

End nodepool_more.

(** * Properties of the GlobalAddress name referencer *)

Module globaladdress_props.
Import globaladdress.

Section referencer.
Context {GlobalAddress : Type}.
Variable spec_Name : GlobalAddress → string.
Variable isReady : GlobalAddress → bool.
Variable kerrors_IsNotFound : error → bool.

Abbreviation GetStatus := (GetStatus isReady kerrors_IsNotFound).
Abbreviation Build := (Build spec_Name).

(** X9.  GetStatus reads the address under the empty namespace and the name
    of the referencer.  It returns an error, and no status, exactly when the
    read fails with an error that is not NotFound, and the error is the
    reader's own.  Otherwise it returns exactly one status, under the name of
    the referencer: NotFound when the read failed with NotFound, NotReady
    when the address was read and is not ready, Ready when it was read and is
    ready. *)
Theorem GetStatus_cases (v : GlobalAddressNameReferencer) (reader : Reader) :
  ∃ statuses err, GetStatus (Some v) reader = Ok (statuses, err) ∧
    (∀ e, err = Some e ↔
          reader "" (Name v) = inr e ∧ kerrors_IsNotFound e = false) ∧
    (is_Some err → statuses = None) ∧
    (err = None →
       ∃ st, statuses = Some [{| rs_Name := Name v; rs_Status := st |}] ∧
         (st = ReferenceNotFound ↔
            ∃ e, reader "" (Name v) = inr e ∧ kerrors_IsNotFound e = true) ∧
         (st = ReferenceNotReady ↔
            ∃ ga, reader "" (Name v) = inl ga ∧ isReady ga = false) ∧
         (st = ReferenceReady ↔
            ∃ ga, reader "" (Name v) = inl ga ∧ isReady ga = true)).
Proof.
  unfold globaladdress.GetStatus. simpl.
  destruct (reader "" (Name v)) as [ga|e0] eqn:Hread.
  - assert (∀ e : error, None = Some e ↔ inl ga = @inr GlobalAddress error e ∧
                                          kerrors_IsNotFound e = false) as Herr.
    { intros e. split; [discriminate | intros [[=] _]]. }
    destruct (isReady ga) eqn:Hready; simpl; eexists _, _;
      (split; [reflexivity|]); (split; [exact Herr|]);
      (split; [by intros [? [=]]|]); intros _; eexists; (split; [reflexivity|]).
    + split; [split; [discriminate | intros (e & [=] & _)]|].
      split; [split; [discriminate | intros (ga' & [= <-] & Hf); congruence]|].
      split; [intros _; by exists ga | done].
    + split; [split; [discriminate | intros (e & [=] & _)]|].
      split; [split; [intros _; by exists ga | done]|].
      split; [discriminate | intros (ga' & [= <-] & Hf); congruence].
  - destruct (kerrors_IsNotFound e0) eqn:Hnf; simpl; eexists _, _;
      (split; [reflexivity|]).
    + split; [intros e; split; [discriminate | intros [[= <-] Hf]; congruence]|].
      split; [by intros [? [=]]|]. intros _. eexists. split; [reflexivity|].
      split; [split; [intros _; by exists e0 | done]|].
      split; (split; [discriminate | intros (ga & [=] & _)]).
    + split; [intros e; split; [by intros [= <-] | by intros [[= <-] _]]|].
      split; [done | discriminate].
Qed.

(** X10.  Build and GetStatus agree on a ready address and part on a missing
    one: when GetStatus reports Ready, Build returns the name in the spec of
    the address and no error; when GetStatus reports NotFound, Build returns
    the empty name and the reader's NotFound error. *)
Theorem Build_after_GetStatus (v : GlobalAddressNameReferencer) (reader : Reader) :
  (GetStatus (Some v) reader
     = Ok (Some [{| rs_Name := Name v; rs_Status := ReferenceReady |}], None) →
   ∃ ga, reader "" (Name v) = inl ga ∧ Build (Some v) reader = Ok (spec_Name ga, None)) ∧
  (GetStatus (Some v) reader
     = Ok (Some [{| rs_Name := Name v; rs_Status := ReferenceNotFound |}], None) →
   ∃ e, reader "" (Name v) = inr e ∧ kerrors_IsNotFound e = true ∧
        Build (Some v) reader = Ok ("", Some e)).
Proof.
  unfold globaladdress.GetStatus, globaladdress.Build. simpl.
  destruct (reader "" (Name v)) as [ga|e0] eqn:Hread.
  - split.
    + intros _. by exists ga.
    + by destruct (isReady ga).
  - split.
    + by destruct (kerrors_IsNotFound e0).
    + destruct (kerrors_IsNotFound e0) eqn:Hnf; [|discriminate].
      intros _. by exists e0.
Qed.

End referencer.

Import runs.

Lemma Build_after_GetStatus_witness :
  (∃ ga, addresses "" "my-address" = inl ga ∧
         Build fst (Some {| Name := "my-address" |}) addresses = Ok (fst ga, None)) ∧
  (∃ e, addresses "" "other" = inr e ∧ is404 e = true ∧
        Build fst (Some {| Name := "other" |}) addresses = Ok ("", Some e)).
Proof.
  split.
  - apply (proj1 (Build_after_GetStatus fst snd is404 {| Name := "my-address" |} addresses)).
    reflexivity.
  - apply (proj2 (Build_after_GetStatus fst snd is404 {| Name := "other" |} addresses)).
    reflexivity.
Defined.

End globaladdress_props.

(** * Properties of the controller setup *)

Module controller_props.
Import controller.

Section setup.
Context {Manager : Type}.
Variable setup : Controller → Manager → Manager * option error.

Lemma setupEach_inv cs : ∀ mgr mgr' called err,
  setupEach setup cs mgr = (mgr', called, err) →
  match err with
  | None => called = cs ∧ allSetUp setup cs mgr mgr'
  | Some e =>
      ∃ before c after mgr0,
        cs = before ++ c :: after ∧ called = before ++ [c] ∧
        allSetUp setup before mgr mgr0 ∧ setup c mgr0 = (mgr', Some e)
  end.
Proof.
  induction cs as [|c cs IH]; intros mgr mgr' called err; simpl.
  - intros [= <- <- <-]. split; [done | constructor].
  - destruct (setup c mgr) as [mgr1 [e|]] eqn:Hc.
    + intros [= <- <- <-]. exists [], c, cs, mgr.
      split; [done|]. split; [done|]. split; [constructor | done].
    + destruct (setupEach setup cs mgr1) as [[mgr2 called2] err2] eqn:Hrest.
      intros [= <- <- <-]. specialize (IH _ _ _ _ Hrest).
      destruct err2 as [e|].
      * destruct IH as (before & c' & after & mgr0 & -> & -> & Hall & Hfail).
        exists (c :: before), c', after, mgr0.
        split; [done|]. split; [done|]. split; [by econstructor | done].
      * destruct IH as [-> Hall]. split; [done | by econstructor].
Qed.

(** X11.  SetupWithManager sets the controllers up in the order of its
    list and stops at the first one that fails.  When it returns nil, every
    controller of the list has been set up.  When it returns an error, the
    error is that of the last controller called, every controller before it
    in the list has been set up, and none after it has been called. *)
Theorem SetupWithManager_first_error (mgr mgr' : Manager)
    (called : list Controller) (err : option error) :
  SetupWithManager setup mgr = (mgr', called, err) →
  match err with
  | None => called = controllers ∧ allSetUp setup controllers mgr mgr'
  | Some e =>
      ∃ before c after mgr0,
        controllers = before ++ c :: after ∧ called = before ++ [c] ∧
        allSetUp setup before mgr mgr0 ∧ setup c mgr0 = (mgr', Some e)
  end.
Proof. apply setupEach_inv. Qed.

End setup.

Lemma SetupWithManager_first_error_witness :
  ∃ before c after mgr0,
    controllers = before ++ c :: after ∧
    take 14 controllers = before ++ [c] ∧
    allSetUp networkFails before [] mgr0 ∧
    networkFails c mgr0 = (take 13 controllers, Some (errors_New "no cache")).
Proof.
  apply (SetupWithManager_first_error networkFails [] (take 13 controllers)
           (take 14 controllers) (Some (errors_New "no cache"))).
  vm_compute. reflexivity.
Defined.

End controller_props.

(** * Properties of the generated accessors *)

Module managed_props.

Section kms.
Import managed.
Context {Reference SecretReference DeletionPolicy : Type}.
Context {ConditionedStatus Condition ConditionType Rest : Type}.
Variable status_GetCondition : ConditionedStatus → ConditionType → Condition.
Variable status_SetConditions : ConditionedStatus → list Condition → ConditionedStatus.

Abbreviation Resource :=
  (Resource Reference SecretReference DeletionPolicy ConditionedStatus Rest).
Abbreviation GetCondition := (GetCondition status_GetCondition).
Abbreviation SetConditions := (SetConditions status_SetConditions).

(** X12.  On CryptoKey, CryptoKeyPolicy and KeyRing the provider reference
    and the provider config reference are two fields: what
    SetProviderReference stores is read back by GetProviderReference and not
    by GetProviderConfigReference, and the other way round; either setter
    leaves the deletion policy, the connection secret reference and every
    condition as they were.  SetConditions changes the status only. *)
Theorem provider_references_are_separate (m : Resource) (r : option Reference) :
  (∃ m', SetProviderReference (Some m) r = Ok m' ∧
     GetProviderReference (Some m') = Ok r ∧
     GetProviderConfigReference (Some m') = GetProviderConfigReference (Some m) ∧
     GetDeletionPolicy (Some m') = GetDeletionPolicy (Some m) ∧
     GetWriteConnectionSecretToReference (Some m')
       = GetWriteConnectionSecretToReference (Some m) ∧
     ∀ ct, GetCondition (Some m') ct = GetCondition (Some m) ct) ∧
  (∃ m', SetProviderConfigReference (Some m) r = Ok m' ∧
     GetProviderConfigReference (Some m') = Ok r ∧
     GetProviderReference (Some m') = GetProviderReference (Some m) ∧
     GetDeletionPolicy (Some m') = GetDeletionPolicy (Some m) ∧
     GetWriteConnectionSecretToReference (Some m')
       = GetWriteConnectionSecretToReference (Some m) ∧
     ∀ ct, GetCondition (Some m') ct = GetCondition (Some m) ct) ∧
  (∀ c, ∃ m', SetConditions (Some m) c = Ok m' ∧
     GetProviderReference (Some m') = GetProviderReference (Some m) ∧
     GetProviderConfigReference (Some m') = GetProviderConfigReference (Some m) ∧
     GetDeletionPolicy (Some m') = GetDeletionPolicy (Some m) ∧
     GetWriteConnectionSecretToReference (Some m')
       = GetWriteConnectionSecretToReference (Some m) ∧
     rest m' = rest m).
Proof.
  split; [|split]; [eexists; by repeat split.. | intros c; eexists; by repeat split].
Qed.

End kms.

Section connection.
Import connection.
Context {ObjectReference SecretReference ReclaimPolicy BindingPhase : Type}.
Context {ResourceStatus Condition ConditionType Rest : Type}.
Variable status_GetBindingPhase : ResourceStatus → BindingPhase.
Variable status_SetBindingPhase : ResourceStatus → BindingPhase → ResourceStatus.
Variable status_GetCondition : ResourceStatus → ConditionType → Condition.
Variable status_SetConditions : ResourceStatus → list Condition → ResourceStatus.

Abbreviation Connection :=
  (Connection ObjectReference SecretReference ReclaimPolicy ResourceStatus Rest).

(** X13.  On a Connection the claim reference and the class reference are
    two fields, each read back by its own getter only, and neither setter
    touches the status; SetBindingPhase and SetConditions go through the
    status and leave the claim reference, the class reference, the reclaim
    policy and the connection secret reference as they were.  Every accessor
    panics on a nil receiver. *)
Theorem connection_accessors (m : Connection) :
  (∀ r, ∃ m', SetClaimReference (Some m) r = Ok m' ∧
     GetClaimReference (Some m') = Ok r ∧
     GetClassReference (Some m') = GetClassReference (Some m) ∧
     Status m' = Status m) ∧
  (∀ r, ∃ m', SetClassReference (Some m) r = Ok m' ∧
     GetClassReference (Some m') = Ok r ∧
     GetClaimReference (Some m') = GetClaimReference (Some m) ∧
     Status m' = Status m) ∧
  (∀ p, ∃ m', SetBindingPhase status_SetBindingPhase (Some m) p = Ok m' ∧
     Status m' = status_SetBindingPhase (Status m) p ∧
     GetClaimReference (Some m') = GetClaimReference (Some m) ∧
     GetClassReference (Some m') = GetClassReference (Some m) ∧
     GetReclaimPolicy (Some m') = GetReclaimPolicy (Some m) ∧
     GetWriteConnectionSecretToReference (Some m')
       = GetWriteConnectionSecretToReference (Some m)) ∧
  (∀ c, ∃ m', SetConditions status_SetConditions (Some m) c = Ok m' ∧
     Status m' = status_SetConditions (Status m) c ∧
     GetClaimReference (Some m') = GetClaimReference (Some m) ∧
     GetClassReference (Some m') = GetClassReference (Some m) ∧
     GetReclaimPolicy (Some m') = GetReclaimPolicy (Some m) ∧
     GetWriteConnectionSecretToReference (Some m')
       = GetWriteConnectionSecretToReference (Some m)) ∧
  (∀ r p c ct policy secret,
     GetBindingPhase status_GetBindingPhase (None : option Connection) = Panic ∧
     GetClaimReference (None : option Connection) = Panic ∧
     GetClassReference (None : option Connection) = Panic ∧
     GetCondition status_GetCondition (None : option Connection) ct = Panic ∧
     GetReclaimPolicy (None : option Connection) = Panic ∧
     GetWriteConnectionSecretToReference (None : option Connection) = Panic ∧
     SetBindingPhase status_SetBindingPhase (None : option Connection) p = Panic ∧
     SetClaimReference (None : option Connection) r = Panic ∧
     SetClassReference (None : option Connection) r = Panic ∧
     SetConditions status_SetConditions (None : option Connection) c = Panic ∧
     SetReclaimPolicy (None : option Connection) policy = Panic ∧
     SetWriteConnectionSecretToReference (None : option Connection) secret = Panic).
Proof.
  repeat split; try (eexists; by repeat split).
Qed.

End connection.

End managed_props.

(** * Further properties of the GKECluster external client *)

Module gkecluster_more.
Import gkecluster gkecluster_props.

Section client.
Context {adapter : Adapter}.

Implicit Types (e : external) (cr : GKECluster) (c : gkeConnecter).

(** ** Connect *)

(** X14.  Connect stops at the first lookup that fails: when the Provider
    cannot be read it returns that error wrapped with "cannot get Provider"
    after this one call; when the Provider is read and its Secret cannot, it
    returns that error wrapped with "cannot get Provider Secret" after these
    two calls.  In both cases no client is returned, no service is created
    and the resource is untouched. *)
Theorem Connect_lookup_errors c cr :
  (∀ err, kube_GetProvider (connecter_kube c) (ProviderReference cr) = inr err →
     Connect c (IsGKECluster cr) =
       Ok {| value := None; failure := Some (withMessage err errGetProvider);
             managed := IsGKECluster cr;
             calls := [KubeGetProvider (ProviderReference cr)] |}) ∧
  (∀ p err, kube_GetProvider (connecter_kube c) (ProviderReference cr) = inl p →
     kube_GetSecret (connecter_kube c) (SecretNamespace p) (SecretName p) = inr err →
     Connect c (IsGKECluster cr) =
       Ok {| value := None; failure := Some (withMessage err errGetProviderSecret);
             managed := IsGKECluster cr;
             calls := [KubeGetProvider (ProviderReference cr);
                       KubeGetSecret (SecretNamespace p) (SecretName p)] |}).
Proof.
  split.
  - intros err Hp. unfold Connect. by rewrite Hp.
  - intros p err Hp Hs. unfold Connect. by rewrite Hp, Hs.
Qed.

(** X15.  Once Provider and Secret are read, Connect hands newServiceFn the
    entry of the secret under the provider's key (nil when the key is
    missing) and dereferences the service it gets back before looking at the
    error.  If newServiceFn returns no service Connect panics, whatever error
    came with it.  If it returns a service, Connect returns a client over
    that service, the connecter's store and the provider's project, together
    with the error of newServiceFn wrapped with "cannot create new GKE
    cluster client" (nil if there was none). *)
Theorem Connect_new_service c cr (p : Provider) (s : gmap string string) :
  kube_GetProvider (connecter_kube c) (ProviderReference cr) = inl p →
  kube_GetSecret (connecter_kube c) (SecretNamespace p) (SecretName p) = inl s →
  (∀ err, newServiceFn c (s !! SecretKey p) = (None, err) →
     Connect c (IsGKECluster cr) = Panic) ∧
  (∀ g err, newServiceFn c (s !! SecretKey p) = (Some g, err) →
     Connect c (IsGKECluster cr) =
       Ok {| value := Some {| kube := connecter_kube c; cluster := g;
                              projectID := ProjectID p |};
             failure := errors_Wrap err errNewClient;
             managed := IsGKECluster cr;
             calls := [KubeGetProvider (ProviderReference cr);
                       KubeGetSecret (SecretNamespace p) (SecretName p);
                       NewService (s !! SecretKey p)] |}).
Proof.
  intros Hp Hs. split.
  - intros err Hn. unfold Connect. by rewrite Hp, Hs, Hn.
  - intros g err Hn. unfold Connect. by rewrite Hp, Hs, Hn.
Qed.

(** ** Observe *)

(** X16.  When the remote Get fails, Observe makes no other call and leaves
    the resource untouched.  If the error is NotFound, Observe returns no
    error and an observation with ResourceExists = false; otherwise it
    returns the error wrapped with "cannot get GKE cluster". *)
Theorem Observe_get_fails e cr (err : error) :
  Clusters_Get (cluster e) (ExternalName cr) = inr err →
  let r := Observe e (IsGKECluster cr) in
  value r = noObservation ∧ ResourceExists (value r) = false ∧
  managed r = IsGKECluster cr ∧ calls r = [ClustersGet (ExternalName cr)] ∧
  (gcp_IsErrorNotFound (Some err) = true → failure r = None) ∧
  (gcp_IsErrorNotFound (Some err) = false →
     failure r = Some (withMessage err errGetCluster)).
Proof.
  intros Hget. unfold Observe. rewrite Hget. simpl.
  do 4 (split; [done|]). unfold resource_Ignore.
  split; intros ->; done.
Qed.

(** X17.  Observe writes to the store only when late initialisation has
    changed the spec, at most once, and what it writes is the resource with
    the new observation and the late-initialised spec.  Its calls are the
    remote Get alone, or the Get followed by that one store update. *)
Theorem Observe_store_write e cr :
  let r := Observe e (IsGKECluster cr) in
  let name := ExternalName cr in
  (calls r = [ClustersGet name] ∨
   ∃ existing,
     Clusters_Get (cluster e) name = inl existing ∧
     ForProvider (lateInitialized cr existing) ≠ ForProvider cr ∧
     calls r = [ClustersGet name; KubeUpdate (lateInitialized cr existing)]) ∧
  (∀ existing,
     Clusters_Get (cluster e) name = inl existing →
     ForProvider (lateInitialized cr existing) = ForProvider cr →
     calls r = [ClustersGet name]).
Proof.
  intros r name. subst r name.
  destruct (Clusters_Get (cluster e) (ExternalName cr)) as [existing|err] eqn:Hget.
  - rewrite (Observe_found_unfold e cr existing Hget). simpl. split.
    + case_bool_decide as Hsame; [by left|]. right. exists existing.
      split; [done|]. split; [intros Heq; apply Hsame; by symmetry|].
      by destruct (kube_Update _ _).
    + intros ex [= <-] Heq. rewrite bool_decide_eq_true_2; [done | by symmetry].
  - unfold Observe. rewrite Hget. simpl. split; [by left | discriminate].
Qed.

(** X18.  On a found object, when the status that Status.AtProvider holds
    at the switch (the provider's, or what a successful store update has
    written back) is none of the six the switch names, a successful Observe
    sets no condition and does not touch the binding phase: the resource it
    leaves is the one it held at the switch, and it still reports
    ResourceExists = true. *)
Theorem Observe_other_status e cr (existing : Cluster) :
  Clusters_Get (cluster e) (ExternalName cr) = inl existing →
  failure (Observe e (IsGKECluster cr)) = None →
  obs_Status (AtProvider (atSwitch e cr existing))
    ∉ [ClusterStateRunning; ClusterStateProvisioning; ClusterStateUnspecified;
       ClusterStateDegraded; ClusterStateError; ClusterStateReconciling] →
  managed (Observe e (IsGKECluster cr)) = IsGKECluster (atSwitch e cr existing) ∧
  ResourceExists (value (Observe e (IsGKECluster cr))) = true ∧
  (ForProvider cr = ForProvider (lateInitialized cr existing) →
     atSwitch e cr existing = lateInitialized cr existing ∧
     Conditions (atSwitch e cr existing) = Conditions cr ∧
     Phase (atSwitch e cr existing) = Phase cr).
Proof.
  intros Hget Hok Hst.
  destruct (Observe_found_ok e cr existing Hget Hok) as [Hm Hv].
  rewrite Hm, Hv.
  assert (setStatusCondition (atSwitch e cr existing) = atSwitch e cr existing) as ->.
  { unfold setStatusCondition.
    apply not_elem_of_cons in Hst as [Hr Hst].
    apply not_elem_of_cons in Hst as [Hp Hst].
    by rewrite !decide_False. }
  split; [done|]. split; [done|].
  intros Hsame. unfold atSwitch. by rewrite bool_decide_eq_true_2.
Qed.

(** ** Observe, then Update *)

(** X19.  Update agrees with the Observe before it as long as the provider
    answers the Get of Update, made under the external name of the resource
    Observe has left, as it answered the Get of Observe: run on that
    resource, Update issues no update call when Observe reported the
    resource up to date, and issues exactly the update IsUpToDate selects for
    the spec of that resource (late-initialised, and as the store wrote it
    back if it was updated) when it did not. *)
Theorem Update_after_Observe e cr (existing : Cluster) :
  Clusters_Get (cluster e) (ExternalName cr) = inl existing →
  failure (Observe e (IsGKECluster cr)) = None →
  Clusters_Get (cluster e) (ExternalName (atSwitch e cr existing)) = inl existing →
  let r := Observe e (IsGKECluster cr) in
  let u := Update e (managed r) in
  let name := ExternalName (atSwitch e cr existing) in
  (ResourceUpToDate (value r) = true →
     calls u = [ClustersGet name] ∧ failure u = None) ∧
  (ResourceUpToDate (value r) = false →
     let fn := (gke_IsUpToDate (ForProvider (atSwitch e cr existing)) existing).2 in
     calls u = [ClustersGet name; ClustersUpdate fn] ∧
     failure u = errors_Wrap (runUpdateFn (cluster e) fn) errUpdateCluster) ∧
  managed u = managed r.
Proof.
  intros Hget Hok Hget2 r u name. subst u r name.
  destruct (Observe_found_ok e cr existing Hget Hok) as [Hm Hv].
  rewrite Hm, Hv. simpl.
  assert (∀ c : GKECluster, ForProvider (setStatusCondition c) = ForProvider c) as Hfp.
  { intros c. unfold setStatusCondition. by repeat case_decide. }
  assert (∀ c : GKECluster, ExternalName (setStatusCondition c) = ExternalName c) as Hname.
  { intros c. unfold setStatusCondition. by repeat case_decide. }
  unfold Update. rewrite Hname, Hfp, Hget2.
  destruct (gke_IsUpToDate _ existing) as [[|] fn]; simpl;
    (split; [|split]; [intros; done.. | done]).
Qed.

(** ** Create *)

(** X20.  Create makes one call, the creation of the cluster generated from
    the spec, under the parent "TODO" whatever the project of the client; it
    fetches nothing, leaves the resource untouched, and returns nil exactly
    when the provider's call does, its error wrapped with "cannot create GKE
    cluster" otherwise. *)
Theorem Create_once e cr :
  let r := Create e (IsGKECluster cr) in
  let generated := gke_GenerateCluster (ForProvider cr) in
  calls r = [ClustersCreate "TODO" generated] ∧
  managed r = IsGKECluster cr ∧
  (failure r = None ↔ Clusters_Create (cluster e) "TODO" generated = None) ∧
  (∀ err, Clusters_Create (cluster e) "TODO" generated = Some err →
     failure r = Some (withMessage err errCreateCluster)) ∧
  (∀ project, Create {| kube := kube e; cluster := cluster e; projectID := project |}
                (IsGKECluster cr) = r).
Proof.
  simpl. split; [done|]. split; [done|]. split; [|split; [|done]].
  - by destruct (Clusters_Create _ _ _).
  - by intros err ->.
Qed.

(** ** Delete *)

(** X21.  Delete leaves the Deleting condition set whatever the provider
    answers, success, NotFound or any other error; it changes nothing else of
    the resource, makes one call, the deletion under the external name, and
    returns nil when that call returns nil. *)
Theorem Delete_marks_deleting e cr :
  let r := Delete e (IsGKECluster cr) in
  managed r = IsGKECluster (setConditions Deleting cr) ∧
  Conditions (setConditions Deleting cr) = SetConditions (Conditions cr) [Deleting] ∧
  ForProvider (setConditions Deleting cr) = ForProvider cr ∧
  AtProvider (setConditions Deleting cr) = AtProvider cr ∧
  Phase (setConditions Deleting cr) = Phase cr ∧
  calls r = [ClustersDelete (ExternalName cr)] ∧
  (Clusters_Delete (cluster e) (ExternalName cr) = None → failure r = None).
Proof.
  simpl. do 6 (split; [done|]). intros ->. by destruct (gcp_IsErrorNotFound None).
Qed.

(** ** Update on a missing cluster *)

(** X22.  Update does not forgive a missing cluster: when its Get fails it
    returns the error wrapped with "cannot get GKE cluster", NotFound
    included, where Observe on the same answer returns no error; it makes no
    update call and leaves the resource untouched. *)
Theorem Update_get_fails e cr (err : error) :
  Clusters_Get (cluster e) (ExternalName cr) = inr err →
  failure (Update e (IsGKECluster cr)) = Some (withMessage err errGetCluster) ∧
  calls (Update e (IsGKECluster cr)) = [ClustersGet (ExternalName cr)] ∧
  managed (Update e (IsGKECluster cr)) = IsGKECluster cr ∧
  (gcp_IsErrorNotFound (Some err) = true →
     failure (Observe e (IsGKECluster cr)) = None).
Proof.
  intros Hget. unfold Update, Observe. rewrite Hget. simpl.
  do 3 (split; [done|]). unfold resource_Ignore. by intros ->.
Qed.

End client.

(** ** Runs on the sample adapter *)

Import sample runs.
#[local] Existing Instance sample.adapter.

Lemma Connect_lookup_errors_witness :
  Connect {| connecter_kube := kubeNoProvider; newServiceFn := newServiceFn connecter0 |}
    (IsGKECluster cr0)
  = Ok {| value := None; failure := Some (withMessage notFound errGetProvider);
          managed := IsGKECluster cr0;
          calls := [KubeGetProvider "gcp-provider"] |} ∧
  Connect {| connecter_kube := kubeNoSecret; newServiceFn := newServiceFn connecter0 |}
    (IsGKECluster cr0)
  = Ok {| value := None; failure := Some (withMessage storeDown errGetProviderSecret);
          managed := IsGKECluster cr0;
          calls := [KubeGetProvider "gcp-provider";
                    KubeGetSecret "crossplane-system" "gcp-creds"] |}.
Proof.
  split.
  - apply (proj1 (Connect_lookup_errors
                    {| connecter_kube := kubeNoProvider;
                       newServiceFn := newServiceFn connecter0 |} cr0) notFound).
    reflexivity.
  - apply (proj2 (Connect_lookup_errors
                    {| connecter_kube := kubeNoSecret;
                       newServiceFn := newServiceFn connecter0 |} cr0) provider0 storeDown);
      reflexivity.
Defined.

Lemma Connect_new_service_witness :
  Connect connecterBroken (IsGKECluster cr0) = Panic ∧
  Connect connecter0 (IsGKECluster cr0)
  = Ok {| value := Some (client kubeUp gkeUp); failure := None;
          managed := IsGKECluster cr0;
          calls := [KubeGetProvider "gcp-provider";
                    KubeGetSecret "crossplane-system" "gcp-creds";
                    NewService (Some "{}")] |}.
Proof.
  split.
  - apply (proj1 (Connect_new_service connecterBroken cr0 provider0
                    {[ "credentials.json" := "{}" ]} eq_refl eq_refl)
             (Some (errors_New "bad credentials"))).
    reflexivity.
  - apply (proj2 (Connect_new_service connecter0 cr0 provider0
                    {[ "credentials.json" := "{}" ]} eq_refl eq_refl)
             gkeUp None).
    reflexivity.
Defined.

Lemma Observe_get_fails_witness :
  let r := Observe (client kubeUp gkeGone) (IsGKECluster cr0) in
  value r = noObservation ∧ ResourceExists (value r) = false ∧
  managed r = IsGKECluster cr0 ∧ calls r = [ClustersGet "gke-demo"] ∧
  (gcp_IsErrorNotFound (Some notFound) = true → failure r = None) ∧
  (gcp_IsErrorNotFound (Some notFound) = false →
     failure r = Some (withMessage notFound errGetCluster)).
Proof.
  apply (Observe_get_fails (client kubeUp gkeGone) cr0 notFound). reflexivity.
Defined.

Lemma Observe_other_status_witness :
  let stopping :=
    {| c_Name := "gke-demo"; c_Status := "STOPPING"; c_MasterVersion := "1.15" |} in
  managed (Observe (client kubeUp gkeStopping) (IsGKECluster cr0))
  = IsGKECluster (atSwitch (client kubeUp gkeStopping) cr0 stopping) ∧
  ResourceExists (value (Observe (client kubeUp gkeStopping) (IsGKECluster cr0))) = true ∧
  (ForProvider cr0 = ForProvider (lateInitialized cr0 stopping) →
     atSwitch (client kubeUp gkeStopping) cr0 stopping = lateInitialized cr0 stopping ∧
     Conditions (atSwitch (client kubeUp gkeStopping) cr0 stopping) = Conditions cr0 ∧
     Phase (atSwitch (client kubeUp gkeStopping) cr0 stopping) = Phase cr0).
Proof.
  apply (Observe_other_status (client kubeUp gkeStopping) cr0
           {| c_Name := "gke-demo"; c_Status := "STOPPING"; c_MasterVersion := "1.15" |}).
  - reflexivity.
  - reflexivity.
  - apply (bool_decide_unpack _). vm_compute. exact I.
Defined.

Lemma Update_after_Observe_witness :
  let r := Observe (client kubeStaleStatus gkeUp) (IsGKECluster cr0) in
  let u := Update (client kubeStaleStatus gkeUp) (managed r) in
  calls r = [ClustersGet "gke-demo";
             KubeUpdate (lateInitialized cr0 running)] ∧
  ResourceUpToDate (value r) = true ∧
  calls u = [ClustersGet "gke-demo"] ∧ failure u = None.
Proof.
  destruct (Update_after_Observe (client kubeStaleStatus gkeUp) cr0 running
              eq_refl eq_refl eq_refl) as (Hup & _ & _).
  destruct (Hup eq_refl) as [Hcalls Hfail].
  split; [reflexivity|]. split; [reflexivity|]. split; [exact Hcalls | exact Hfail].
Defined.

(** a store that answers with the status it has on record: the provider
    object is RUNNING, the late-initialised spec is stored, and Observe,
    switching on the status written back, sets Creating *)
Example Observe_stale_status :
  let r := Observe (client kubeStaleStatus gkeUp) (IsGKECluster cr0) in
  c_Status running = "RUNNING" ∧ failure r = None ∧
  ∃ cr', managed r = IsGKECluster cr' ∧
         AtProvider cr' = "PROVISIONING" ∧ Conditions cr' = Some Creating ∧
         Phase cr' = PhaseUnset.
Proof. simpl. repeat split. by eexists. Qed.

Lemma Update_get_fails_witness :
  failure (Update (client kubeUp gkeGone) (IsGKECluster cr0))
    = Some (withMessage notFound errGetCluster) ∧
  calls (Update (client kubeUp gkeGone) (IsGKECluster cr0)) = [ClustersGet "gke-demo"] ∧
  managed (Update (client kubeUp gkeGone) (IsGKECluster cr0)) = IsGKECluster cr0 ∧
  (gcp_IsErrorNotFound (Some notFound) = true →
     failure (Observe (client kubeUp gkeGone) (IsGKECluster cr0)) = None).
Proof.
  apply (Update_get_fails (client kubeUp gkeGone) cr0 notFound). reflexivity.
Defined.

End gkecluster_more.
